(** * VIX Central contango downloader: a model of [process_contango.py]

    The script fetches one HTML table, normalises it with a short chain of
    pandas calls and writes the result as a CSV file.  This development
    embeds that chain: the table is a list of labelled rows, every pandas
    call used by the script is a function on that table, Python exceptions
    are an error monad, and the file system is a finite map from paths to
    contents, with the faults a write can meet.  Floating-point cells are
    IEEE-754 binary64 values in the representation of the Standard
    Library's [SpecFloat]. *)

From Stdlib Require Import ZArith QArith Qabs Qpower Lia Lqa.
From Stdlib Require Import String Ascii List Sorting.Sorted.
From Stdlib Require Import Floats.SpecFloat Floats.FloatOps.
From stdpp Require Import base decidable option list sorting gmap strings.

Local Open Scope string_scope.
Local Open Scope Z_scope.

(** ** Python exceptions as an error monad *)

(** The subclasses of [Exception] that the calls of the script raise.
    [KeyboardInterrupt] and [SystemExit] are not subclasses of [Exception];
    they are outside the model. *)
Inductive exn : Type :=
  | KeyError | ValueError | IndexError | TypeError | AttributeError
  | OverflowError | OSError | URLError.

Inductive result (A : Type) : Type :=
  | Ok (a : A)
  | Raise (e : exn).
Arguments Ok {A} a.
Arguments Raise {A} e.

Global Instance result_ret : MRet result := fun A a => Ok a.
Global Instance result_bind : MBind result := fun A B k m =>
  match m with
  | Ok a => k a
  | Raise e => Raise e
  end.

Definition is_ok {A} (m : result A) : bool :=
  match m with Ok _ => true | Raise _ => false end.

(** A function applied to every element of a column; the first exception
    aborts the whole call, as a vectorised pandas operation does. *)
Fixpoint mapR {A B} (f : A -> result B) (l : list A) : result (list B) :=
  match l with
  | [] => Ok []
  | x :: l' => y ← f x; ys ← mapR f l'; Ok (y :: ys)
  end.

(** The body of a [for] loop run over a list, threading the state. *)
Fixpoint forR {A S} (body : A -> S -> result S) (l : list A) (s : S) : result S :=
  match l with
  | [] => Ok s
  | x :: l' => s' ← body x s; forR body l' s'
  end.

(** ** Floating point: Python [float] is IEEE-754 binary64 *)

Module Float.

Definition t : Type := spec_float.

Definition nan : t := S754_nan.

Definition is_nan (x : t) : bool :=
  match x with S754_nan => true | _ => false end.

(** The integer nearest to [n / d], ties to the even one. *)
Definition round_div (n d : Z) : Z :=
  let m := n / d in
  let r := n mod d in
  if 2 * r <? d then m
  else if d <? 2 * r then m + 1
  else if Z.even m then m else m + 1.

(** The integer [l] with [2^l <= p / q < 2^(l + 1)], for positive [p]
    and [q]. *)
Definition ilog2 (p q : Z) : Z :=
  let k := Z.log2 p - Z.log2 q in
  if (if 0 <=? k then q * 2 ^ k <=? p else q <=? p * 2 ^ (- k)) then k
  else k - 1.

(** The binary64 value nearest to [(-1)^neg * p / q] for positive [p] and
    [q], ties to even: the quotient is rounded to an integer at the
    exponent that leaves 53 bits, or at the least exponent [-1074] for a
    subnormal result; beyond the largest finite value it is an infinity. *)
Definition of_ratio (neg : bool) (p q : Z) : t :=
  let e := Z.max (ilog2 p q - 52) (-1074) in
  let m := if 0 <=? e then round_div p (q * 2 ^ e)
           else round_div (p * 2 ^ (- e)) q in
  if m =? 0 then S754_zero neg
  else
    let '(m, e) := if m =? 2 ^ 53 then (2 ^ 52, e + 1) else (m, e) in
    if 971 <? e then S754_infinity neg else S754_finite neg (Z.to_pos m) e.

(** [Series.mul] on one cell: the binary64 product, the exact product
    rounded to nearest even, with the IEEE-754 rules for zeros, infinities
    and NaN. *)
Definition mul (x y : t) : t :=
  match x, y with
  | S754_nan, _ | _, S754_nan => nan
  | S754_infinity _, S754_zero _ | S754_zero _, S754_infinity _ => nan
  | S754_infinity sx, S754_infinity sy
  | S754_infinity sx, S754_finite sy _ _
  | S754_finite sx _ _, S754_infinity sy => S754_infinity (xorb sx sy)
  | S754_zero sx, S754_zero sy
  | S754_zero sx, S754_finite sy _ _
  | S754_finite sx _ _, S754_zero sy => S754_zero (xorb sx sy)
  | S754_finite sx mx ex, S754_finite sy my ey =>
      let e := ex + ey in
      if 0 <=? e then of_ratio (xorb sx sy) (Z.pos mx * Z.pos my * 2 ^ e) 1
      else of_ratio (xorb sx sy) (Z.pos mx * Z.pos my) (2 ^ (- e))
  end.

(** The binary64 value nearest to [(-1)^neg * m * 10^e]. *)
Definition of_decimal (neg : bool) (m e : Z) : t :=
  if m =? 0 then S754_zero neg
  else if 0 <=? e then of_ratio neg (m * 10 ^ e) 1
  else of_ratio neg m (10 ^ (- e)).

(** The constant [0.01] of the source, as the Python literal is read. *)
Definition hundredth : t := Eval vm_compute in of_decimal false 1 (-2).

(** The rational number a float stands for; infinities and NaN stand for
    none. *)
Definition value (x : t) : option Q :=
  match x with
  | S754_zero _ => Some 0%Q
  | S754_finite s m e =>
      Some ((if s then - (1) else 1) * inject_Z (Z.pos m) * 2 ^ e)%Q
  | _ => None
  end.

(** The rational number [(-1)^neg * m * 10^e]. *)
Definition decimal_value (neg : bool) (m e : Z) : Q :=
  ((if neg then - (1) else 1) * inject_Z m * 10 ^ e)%Q.

(** The unit roundoff of binary64, [2^-53]. *)
Definition u : Q := (1 # 9007199254740992)%Q.

(** [a] is [b] or one of the two binary64 values next to [b]. *)
Definition within_one_ulp (a b : t) : bool :=
  match SFcompare a b, SFcompare a (SFsucc prec emax b),
        SFcompare a (SFpred prec emax b) with
  | Some Eq, _, _ | _, Some Eq, _ | _, _, Some Eq => true
  | _, _, _ => false
  end.

End Float.

(** ** The text accepted by Python's [float(str)] *)

(** A text is the UTF-8 encoding of a Python [str], one [ascii] per byte.
    [float] first turns every white space character outside ASCII into a
    space and every decimal digit outside ASCII (Arabic-Indic, full-width
    and so on) into the ASCII digit of its value; it then ignores the
    ASCII white space of [Py_ISSPACE] around the number (tab, line feed,
    vertical tab, form feed, carriage return, space).  The digits are
    those of Unicode 14.0, the table of CPython 3.11; a later interpreter
    knows the digits of a few more scripts. *)

Module PyFloat.

Definition is_space (c : ascii) : bool :=
  let n := nat_of_ascii c in
  ((9 <=? n) && (n <=? 13) || (n =? 32))%nat.

Definition is_ascii (s : string) : bool :=
  forallb (fun c => (nat_of_ascii c <? 128)%nat) (list_ascii_of_string s).

(** The payload of a continuation byte, and [None] for another byte. *)
Definition continuation (c : ascii) : option N :=
  let b := N_of_ascii c in
  if ((128 <=? b) && (b <? 192))%N then Some (b - 128)%N else None.

(** The code point that stands for a badly encoded character. *)
Definition replacement : N := 65533.

(** The code points of a UTF-8 text. *)
Fixpoint code_points (s : list ascii) : list N :=
  match s with
  | [] => []
  | a :: s1 =>
      let x := N_of_ascii a in
      if (x <? 128)%N then x :: code_points s1
      else
        match s1 with
        | b :: s2 =>
            match continuation b with
            | None => replacement :: code_points s1
            | Some y =>
                if ((194 <=? x) && (x <? 224))%N
                then ((x - 192) * 64 + y)%N :: code_points s2
                else
                  match s2 with
                  | c :: s3 =>
                      match continuation c with
                      | None => replacement :: code_points s1
                      | Some z =>
                          if ((224 <=? x) && (x <? 240))%N
                          then
                            let cp := ((x - 224) * 4096 + y * 64 + z)%N in
                            (if (2048 <=? cp)%N then cp else replacement)
                              :: code_points s3
                          else
                            match s3 with
                            | d :: s4 =>
                                match continuation d with
                                | None => replacement :: code_points s1
                                | Some w =>
                                    let cp := ((x - 240) * 262144 + y * 4096
                                               + z * 64 + w)%N in
                                    (if ((240 <=? x) && (x <? 245)
                                         && (65536 <=? cp))%N
                                     then cp else replacement)
                                      :: code_points s4
                                end
                            | [] => [replacement]
                            end
                      end
                  | [] => [replacement]
                  end
            end
        | [] => [replacement]
        end
  end.

(** The white space outside ASCII: U+0085, U+00A0, U+1680, U+2000 to
    U+200A, U+2028, U+2029, U+202F, U+205F and U+3000. *)
Definition unicode_space (cp : N) : bool :=
  ((cp =? 133) || (cp =? 160) || (cp =? 5760)
   || (8192 <=? cp) && (cp <=? 8202)
   || (cp =? 8232) || (cp =? 8233) || (cp =? 8239) || (cp =? 8287)
   || (cp =? 12288))%N.

(** The decimal digits outside ASCII come in runs of ten, from the digit
    zero to the digit nine; these are the code points of the zeros. *)
Definition decimal_zeros : list N :=
  [1632; 1776; 1984; 2406; 2534; 2662; 2790; 2918;
   3046; 3174; 3302; 3430; 3558; 3664; 3792; 3872;
   4160; 4240; 6112; 6160; 6470; 6608; 6784; 6800;
   6992; 7088; 7232; 7248; 42528; 43216; 43264; 43472;
   43504; 43600; 44016; 65296; 66720; 68912; 69734; 69872;
   69942; 70096; 70384; 70736; 70864; 71248; 71360; 71472;
   71904; 72016; 72784; 73040; 73120; 92768; 92864; 93008;
   120782; 120792; 120802; 120812; 120822; 123200; 123632; 125264;
   130032]%N.

Definition unicode_digit (cp : N) : option N :=
  match filter (fun z => (z <=? cp)%N && (cp <? z + 10)%N) decimal_zeros with
  | z :: _ => Some (cp - z)%N
  | [] => None
  end.

(** The ASCII text [float] parses: a character below 127 is kept, a white
    space becomes a space, a decimal digit the ASCII digit of its value;
    any other character becomes ["?"] and ends the text. *)
Fixpoint to_ascii (cps : list N) : list ascii :=
  match cps with
  | [] => []
  | cp :: rest =>
      if (cp <? 127)%N then ascii_of_N cp :: to_ascii rest
      else if unicode_space cp then " "%char :: to_ascii rest
      else
        match unicode_digit cp with
        | Some d => ascii_of_N (48 + d) :: to_ascii rest
        | None => ["?"%char]
        end
  end.

Definition is_digit (c : ascii) : bool :=
  let n := nat_of_ascii c in ((48 <=? n) && (n <=? 57))%nat.

Definition digit (c : ascii) : Z := Z.of_nat (nat_of_ascii c) - 48.

Definition lower (c : ascii) : ascii :=
  let n := nat_of_ascii c in
  if ((65 <=? n) && (n <=? 90))%nat then ascii_of_nat (n + 32) else c.

Definition chars (s : string) : list ascii := list_ascii_of_string s.

Fixpoint lstrip (s : list ascii) : list ascii :=
  match s with
  | c :: s' => if is_space c then lstrip s' else s
  | [] => []
  end.

Definition strip (s : list ascii) : list ascii :=
  rev (lstrip (rev (lstrip s))).

(** The digits that follow a digit: more digits, each optionally
    preceded by a single underscore. *)
Fixpoint more_digits (s : list ascii) : list Z * list ascii :=
  match s with
  | c :: s' =>
      if is_digit c then
        let '(ds, r) := more_digits s' in (digit c :: ds, r)
      else if Ascii.eqb c "_" then
        match s' with
        | d :: s'' =>
            if is_digit d then
              let '(ds, r) := more_digits s'' in (digit d :: ds, r)
            else ([], s)
        | [] => ([], s)
        end
      else ([], s)
  | [] => ([], [])
  end.

(** [digitpart ::= digit (["_"] digit)*] *)
Definition digitpart (s : list ascii) : option (list Z * list ascii) :=
  match s with
  | c :: s' =>
      if is_digit c then
        let '(ds, r) := more_digits s' in Some (digit c :: ds, r)
      else None
  | [] => None
  end.

Definition sign (s : list ascii) : bool * list ascii :=
  match s with
  | c :: s' =>
      if Ascii.eqb c "-" then (true, s')
      else if Ascii.eqb c "+" then (false, s')
      else (false, s)
  | [] => (false, [])
  end.

Definition number_of (ds : list Z) : Z :=
  fold_left (fun acc d => 10 * acc + d) ds 0.

(** [exponent ::= ("e" | "E") [sign] digitpart]; an absent exponent is 0. *)
Definition exponent (s : list ascii) : option Z :=
  match s with
  | [] => Some 0
  | c :: s' =>
      if Ascii.eqb (lower c) "e" then
        let '(neg, s1) := sign s' in
        match digitpart s1 with
        | Some (ds, []) => Some (if neg then - number_of ds else number_of ds)
        | _ => None
        end
      else None
  end.

(** [number ::= [digitpart] "." digitpart | digitpart ["."]], followed by
    the exponent; the result is the mantissa and the decimal exponent. *)
Definition floatnumber (s : list ascii) : option (Z * Z) :=
  let '(ip, s1) :=
    match digitpart s with
    | Some (ds, r) => (Some ds, r)
    | None => (None, s)
    end in
  let '(fp, s2) :=
    match s1 with
    | c :: r =>
        if Ascii.eqb c "." then
          match digitpart r with
          | Some (ds, r') => (Some ds, r')
          | None => (if ip is Some _ then Some [] else None, r)
          end
        else (Some [], s1)
    | [] => (Some [], s1)
    end in
  match ip, fp with
  | None, Some [] => None
  | _, None => None
  | _, Some fs =>
      let ds := default [] ip in
      e ← exponent s2;
      Some (number_of (ds ++ fs)%list, e - Z.of_nat (length fs))
  end.

(** The sign and the body of the text, without the white space around
    them. *)
Definition signed_body (s : string) : bool * list ascii :=
  sign (strip (to_ascii (code_points (chars s)))).

(** [float(s)]: surrounding white space is ignored, then an optional sign
    and [inf], [infinity], [nan] in any case, or a decimal number, which
    is rounded to the nearest float. *)
Definition parse (s : string) : option Float.t :=
  let '(neg, body) := signed_body s in
  let word := string_of_list_ascii (map lower body) in
  if bool_decide (word = "inf") || bool_decide (word = "infinity")
  then Some (S754_infinity neg)
  else if bool_decide (word = "nan") then Some Float.nan
  else '(m, e) ← floatnumber body; Some (Float.of_decimal neg m e).

(** The number a decimal text denotes, sign, digits and power of ten; no
    rounding takes place. *)
Definition decimal (s : string) : option (bool * Z * Z) :=
  let '(neg, body) := signed_body s in
  '(m, e) ← floatnumber body; Some (neg, m, e).

End PyFloat.

(** ** Values and tables *)

(** A pandas timestamp is a count of nanoseconds since the epoch; [NaT] is
    the missing timestamp. *)
Inductive datetime : Type :=
  | NaT
  | Timestamp (ns : Z).

(** The Python objects that occur as cells and as labels. *)
Inductive value : Type :=
  | VStr (s : string)
  | VFloat (f : Float.t)
  | VInt (n : Z)
  | VTime (t : datetime).

Global Instance spec_float_eq_dec : EqDecision spec_float.
Proof. solve_decision. Defined.
Global Instance datetime_eq_dec : EqDecision datetime.
Proof. solve_decision. Defined.
Global Instance value_eq_dec : EqDecision value.
Proof. solve_decision. Defined.

(** [np.nan] *)
Definition NaN : value := VFloat Float.nan.

(** A row is its index label and its cells, one cell per column label. *)
Definition row : Type := value * list value.

Record DataFrame : Type := mkDataFrame {
  columns : list value;
  rows : list row;
}.

(** A column taken out of a table, in row order. *)
Definition Series : Type := list value.

(** [NaT] sorts last ([na_position='last']). *)
Definition datetime_le (a b : datetime) : Prop :=
  match a, b with
  | Timestamp x, Timestamp y => x <= y
  | _, NaT => True
  | NaT, Timestamp _ => False
  end.

Definition datetime_lt (a b : datetime) : Prop :=
  datetime_le a b /\ a <> b.

(** The timestamp of a label of a [DatetimeIndex]. *)
Definition time_of (v : value) : datetime :=
  match v with VTime t => t | _ => NaT end.

(** The order of the rows of a table indexed by timestamps. *)
Definition index_le (r1 r2 : row) : Prop :=
  datetime_le (time_of r1.1) (time_of r2.1).

Global Instance datetime_le_dec a b : Decision (datetime_le a b).
Proof. destruct a, b; simpl; apply _. Defined.
Global Instance index_le_dec r1 r2 : Decision (index_le r1 r2).
Proof. unfold index_le; apply _. Defined.

Definition is_time (v : value) : bool :=
  match v with VTime _ => true | _ => false end.

(** ** The pandas calls of the script *)

Module pd.

Definition count (c : value) (labels : list value) : nat :=
  length (filter (fun l => l = c) labels).

(** The cell of a row under label [c]. *)
Fixpoint cell (c : value) (labels cells : list value) : value :=
  match labels, cells with
  | l :: ls, v :: vs => if bool_decide (l = c) then v else cell c ls vs
  | _, _ => NaN
  end.

(** The row with [x] stored under label [c]. *)
Fixpoint set_cell (c x : value) (labels cells : list value) : list value :=
  match labels, cells with
  | l :: ls, v :: vs =>
      (if bool_decide (l = c) then x else v) :: set_cell c x ls vs
  | _, _ => cells
  end.

(** The row without the cell under label [c]. *)
Fixpoint del_cell (c : value) (labels cells : list value) : list value :=
  match labels, cells with
  | l :: ls, v :: vs =>
      if bool_decide (l = c) then del_cell c ls vs else v :: del_cell c ls vs
  | _, _ => cells
  end.

Definition len (df : DataFrame) : Z := Z.of_nat (length (rows df)).

(** [df.iloc[0]]: the cells of the first row by position. *)
Definition iloc0 (df : DataFrame) : result (list value) :=
  match rows df with
  | r :: _ => Ok r.2
  | [] => Raise IndexError
  end.

(** [df.columns = labels] *)
Definition set_columns (df : DataFrame) (labels : list value) : result DataFrame :=
  if bool_decide (length labels = length (columns df))
  then Ok (mkDataFrame labels (rows df))
  else Raise ValueError.

(** [df.drop(index=label, inplace=True)]: every row with that index label
    goes; a label that is not in the index is a [KeyError]. *)
Definition drop (df : DataFrame) (label : value) : result DataFrame :=
  if bool_decide (label ∈ (rows df).*1)
  then Ok (mkDataFrame (columns df) (filter (fun r : row => r.1 <> label) (rows df)))
  else Raise KeyError.

(** [df[c]] as a Series, for a label that occurs once among the columns.
    A label that occurs twice selects a frame: [pd.to_datetime] and [.str]
    refuse it, while the loop of lines 24 to 26 converts every column
    under the label; the model raises in both cases, so it covers the
    tables whose first row names each column once. *)
Definition getitem (df : DataFrame) (c : value) : result Series :=
  match count c (columns df) with
  | 0%nat => Raise KeyError
  | 1%nat => Ok (map (fun r : row => cell c (columns df) r.2) (rows df))
  | _ => Raise TypeError
  end.

(** The rows with the Series [s] stored under label [c]; the Series has
    the index of the table and is stored by position. *)
Fixpoint assign (c : value) (labels : list value) (rs : list row) (s : Series)
    : list row :=
  match rs with
  | [] => []
  | r :: rs' =>
      (r.1, set_cell c (hd NaN s) labels r.2) :: assign c labels rs' (tl s)
  end.

Fixpoint append (rs : list row) (s : Series) : list row :=
  match rs with
  | [] => []
  | r :: rs' => (r.1, (r.2 ++ [hd NaN s])%list) :: append rs' (tl s)
  end.

(** [df[c] = s]: an existing column is overwritten, a new label adds a
    column at the end. *)
Definition setitem (df : DataFrame) (c : value) (s : Series) : DataFrame :=
  match count c (columns df) with
  | 0%nat => mkDataFrame (columns df ++ [c])%list (append (rows df) s)
  | _ => mkDataFrame (columns df) (assign c (columns df) (rows df) s)
  end.

(** [df.set_index(c)]: column [c] becomes the index and leaves the
    columns. *)
Definition set_index (df : DataFrame) (c : value) : result DataFrame :=
  match count c (columns df) with
  | 0%nat => Raise KeyError
  | 1%nat =>
      Ok (mkDataFrame
            (filter (fun l => l <> c) (columns df))
            (map (fun r : row =>
                    (cell c (columns df) r.2, del_cell c (columns df) r.2))
                 (rows df)))
  | _ => Raise ValueError
  end.

(** The row put before the first row that is not earlier than it. *)
Fixpoint insert_row (r : row) (rs : list row) : list row :=
  match rs with
  | [] => [r]
  | x :: rs' =>
      if decide (index_le r x) then r :: rs else x :: insert_row r rs'
  end.

(** The rows in ascending order of their labels, [NaT] last; rows with
    equal labels keep the order they had. *)
Definition sort_rows (rs : list row) : list row := foldr insert_row [] rs.

(** [df.sort_index()] on a [DatetimeIndex], ascending.  Rows with equal
    labels, the rows labelled [NaT] among them, come out in the order they
    had: that is what the sort does on the short runs of equal dates a page
    can hold.  pandas does not promise it for its default sort on a long
    table, and no theorem below depends on the order among equal labels. *)
Definition sort_index (df : DataFrame) : result DataFrame :=
  if forallb is_time (rows df).*1
  then Ok (mkDataFrame (columns df) (sort_rows (rows df)))
  else Raise TypeError.

(** Python's [str.replace(old, new)] for a one-character [old]. *)
Fixpoint replace_char (old : ascii) (new s : string) : string :=
  match s with
  | EmptyString => EmptyString
  | String ch s' =>
      if Ascii.eqb ch old then new +:+ replace_char old new s'
      else String ch (replace_char old new s')
  end.

(** [s.str.replace(old, new)]: every occurrence in every string; a cell
    that is not a string becomes [NaN].  That is [.str] on a column of
    texts and missing cells, which the columns of a fetched page are; on a
    column that holds numbers and no text pandas refuses [.str]. *)
Definition str_replace (old : ascii) (new : string) (s : Series) : Series :=
  map (fun v => match v with
                | VStr x => VStr (replace_char old new x)
                | _ => NaN
                end) s.

(** Python's [float(v)]. *)
Definition float (v : value) : result Float.t :=
  match v with
  | VStr s =>
      match PyFloat.parse s with
      | Some f => Ok f
      | None => Raise ValueError
      end
  | VFloat f => Ok f
  | VInt n =>
      match Float.of_decimal (n <? 0) (Z.abs n) 0 with
      | S754_infinity _ => Raise OverflowError
      | f => Ok f
      end
  | VTime _ => Raise TypeError
  end.

(** [s.astype(float)] *)
Definition astype_float (s : Series) : result (list Float.t) :=
  mapR float s.

(** [s.mul(k)] *)
Definition mul (s : list Float.t) (k : Float.t) : list Float.t :=
  map (fun x => Float.mul x k) s.

(** [s.replace(old, new)]: cells equal to [old] become [new]. *)
Definition replace (old new : value) (s : Series) : Series :=
  map (fun v => if bool_decide (v = old) then new else v) s.

End pd.

(** ** The file system *)

(** What goes wrong when a file is written: it cannot be opened (no
    permission, a read-only medium), or it is opened, which empties it,
    and the write fails later (a full disk, a lost connection) with
    [rest] in the file. *)
Inductive fault (content : Type) : Type :=
  | CannotOpen
  | Breaks (rest : content).
Arguments CannotOpen {content}.
Arguments Breaks {content} rest.

(** The directories that exist, the files with their contents, and the
    fault that a write to a path will meet, if any. *)
Record filesystem (content : Type) : Type := mkFilesystem {
  dirs : gset string;
  files : gmap string content;
  faults : gmap string (fault content);
}.
Arguments mkFilesystem {content} dirs files faults.
Arguments dirs {content} f.
Arguments files {content} f.
Arguments faults {content} f.

(** A file system on which every write succeeds. *)
Definition mkFS {content} (dirs : gset string) (files : gmap string content)
    : filesystem content :=
  mkFilesystem dirs files ∅.

(** The file system with [data] in the file at [path]. *)
Definition store {content} (path : string) (data : content)
    (fs : filesystem content) : filesystem content :=
  mkFilesystem (dirs fs) (<[path := data]> (files fs)) (faults fs).

(** A file can be opened for writing when its directory exists and its
    path is not a directory. *)
Definition can_open {content} (dir path : string) (fs : filesystem content)
    : bool :=
  bool_decide (dir ∈ dirs fs) && negb (bool_decide (path ∈ dirs fs)).

(** [open(path, 'w')], the writes and the close that run to their end:
    the file is created or overwritten. *)
Definition write_file {content} (dir name : string) (data : content)
    (fs : filesystem content) : result (filesystem content) :=
  let path := dir +:+ "/" +:+ name in
  if can_open dir path fs then
    match faults fs !! path with
    | None => Ok (store path data fs)
    | Some _ => Raise OSError
    end
  else Raise OSError.

(** What a write that raised leaves behind: the file system as it was
    when the file could not be opened, the file with what got written
    when the failure came after the file was opened. *)
Definition interrupted_write {content} (dir name : string)
    (fs : filesystem content) : filesystem content :=
  let path := dir +:+ "/" +:+ name in
  if can_open dir path fs then
    match faults fs !! path with
    | Some (Breaks rest) => store path rest fs
    | _ => fs
    end
  else fs.

(** ** The script *)

Section Script.

(** The two library behaviours the script relies on without fixing them:
    what [pd.to_datetime] makes of one value of the [Date] column (a
    timestamp, [NaT], or an exception), and the CSV text
    [DataFrame.to_csv] produces for a table.  The theorems stated with
    [to_datetime_scalar] hold whatever these two are; [datetime_of] below
    is [to_datetime_scalar] with what pandas does for a missing value
    written out. *)
Context {content : Type}.
Variable to_datetime_scalar : value -> result datetime.
Variable csv_text : DataFrame -> content.

(** [pd.to_datetime(s)] with the default [errors='raise']. *)
Definition to_datetime (s : Series) : result Series :=
  ts ← mapR to_datetime_scalar s; Ok (map VTime ts).

(** [df.to_csv(f'{folder}/name')] *)
Definition to_csv (df : DataFrame) (folder name : string)
    (fs : filesystem content) : result (filesystem content) :=
  write_file folder name (csv_text df) fs.

(** Lines 21 to 23:
    [df[c] = df[c].str.replace('%', '').astype(float).mul(0.01)] *)
Definition percent_column (c : string) (df : DataFrame) : result DataFrame :=
  s ← pd.getitem df (VStr c);
  x ← pd.astype_float (pd.str_replace "%" "" s);
  Ok (pd.setitem df (VStr c) (map VFloat (pd.mul x Float.hundredth))).

(** Lines 25 and 26, the body of [for c in df]. *)
Definition float_column (c : value) (df : DataFrame) : result DataFrame :=
  s ← pd.getitem df c;
  let df := pd.setitem df c (pd.replace (VStr "-") NaN s) in
  s ← pd.getitem df c;
  x ← pd.astype_float s;
  Ok (pd.setitem df c (map VFloat x)).

(** Lines 16 to 18: the first row names the columns, then the rows
    labelled [0] and [len(df)] go. *)
Definition drop_sentinels (df : DataFrame) : result DataFrame :=
  header ← pd.iloc0 df;
  df ← pd.set_columns df header;
  df ← pd.drop df (VInt 0);
  pd.drop df (VInt (pd.len df)).

(** Lines 19 and 20. *)
Definition index_by_date (df : DataFrame) : result DataFrame :=
  s ← pd.getitem df (VStr "Date");
  d ← to_datetime s;
  let df := pd.setitem df (VStr "Date") d in
  df ← pd.set_index df (VStr "Date");
  pd.sort_index df.

(** Lines 21 to 26. *)
Definition to_numbers (df : DataFrame) : result DataFrame :=
  df ← percent_column "Contango 2/1" df;
  df ← percent_column "Contango 7/4" df;
  df ← percent_column "Con 7/4 div 3" df;
  forR float_column (columns df) df.

(** Lines 16 to 26: the table that is written. *)
Definition normalize (df : DataFrame) : result DataFrame :=
  df ← drop_sentinels df;
  df ← index_by_date df;
  to_numbers df.

Definition url : string := "http://vixcentral.com/historical/?days=100000".

(** The [try] block, lines 15 to 30.  [read_html] is the answer of the
    network: the tables of the page, or the exception raised. *)
Definition try_block (read_html : string -> result (list DataFrame))
    (destination_folder : string) (fs : filesystem content)
    : result (filesystem content) :=
  tables ← read_html url;
  df ← match tables with t :: _ => Ok t | [] => Raise IndexError end;
  df ← normalize df;
  to_csv df destination_folder "vix_contago.csv" fs.

(** Lines 15 to 26 of the block: the table that will be written. *)
Definition fetch_and_normalize (read_html : string -> result (list DataFrame))
    : result DataFrame :=
  tables ← read_html url;
  df ← match tables with t :: _ => Ok t | [] => Raise IndexError end;
  normalize df.

(** The function: [True] and the new file system when the block runs to
    its end, [False] when an exception is caught.  An exception raised
    before line 28 leaves the file system as it was; one raised by
    [to_csv] leaves what the interrupted write did. *)
Definition get_and_save_vix_contago
    (read_html : string -> result (list DataFrame))
    (destination_folder : string) (fs : filesystem content)
    : bool * filesystem content :=
  match fetch_and_normalize read_html with
  | Raise _ => (false, fs)
  | Ok df =>
      match to_csv df destination_folder "vix_contago.csv" fs with
      | Ok fs' => (true, fs')
      | Raise _ =>
          (false, interrupted_write destination_folder "vix_contago.csv" fs)
      end
  end.

(** Lines 35 to 39: the exit status of the process.  A missing argument
    makes [sys.argv[1]] raise outside the [try]; the interpreter then
    ends with status 1. *)
Definition main (argv : list string)
    (read_html : string -> result (list DataFrame))
    (fs : filesystem content) : Z * filesystem content :=
  match argv !! 1%nat with
  | Some folder =>
      let '(ok, fs') := get_and_save_vix_contago read_html folder fs in
      (if ok then 0 else 1, fs')
  | None => (1, fs)
  end.

End Script.

(** ** [pd.to_datetime] on one value *)

(** The texts pandas takes for a missing date, besides the empty text. *)
Definition nat_strings : list string :=
  ["NaT"; "nat"; "NAT"; "nan"; "NaN"; "NAN"].

Definition missing_text (s : string) : bool :=
  bool_decide (s = "" \/ s ∈ nat_strings).

(** The values [pd.to_datetime] turns into [NaT] without an error: the
    empty text, the texts above, [NaN] and [NaT] itself. *)
Definition missing_date (v : value) : bool :=
  match v with
  | VStr s => missing_text s
  | VFloat f => Float.is_nan f
  | VInt _ => false
  | VTime t => bool_decide (t = NaT)
  end.

(** [pd.to_datetime] on one value, with the default [errors='raise']: a
    missing value becomes [NaT]; any other value is read by [read_date],
    the date parser for a text and the count of nanoseconds for a number,
    and the call raises when that reading fails.  pandas reads a column
    in one pass and may take the form of the first date as the form of
    all of them; [read_date] stands for the reading under the form the
    column is read by. *)
Definition datetime_of (read_date : value -> option Z) (v : value)
    : result datetime :=
  match v with
  | VTime t => Ok t
  | _ =>
      if missing_date v then Ok NaT
      else
        match read_date v with
        | Some ns => Ok (Timestamp ns)
        | None => Raise ValueError
        end
  end.

(** ** A date reader to run the model with *)

(** Dates written [YYYY-MM-DD], the form the source page uses.
    [pd.to_datetime] reads more forms than this one, and reads numbers;
    the theorems below hold for every reader, and this one serves to
    evaluate the script on concrete tables. *)
Module Iso.

Definition days_from_civil (y m d : Z) : Z :=
  let y' := if m <=? 2 then y - 1 else y in
  let era := y' / 400 in
  let yoe := y' - era * 400 in
  let mp := (m + 9) mod 12 in
  let doy := (153 * mp + 2) / 5 + d - 1 in
  era * 146097 + (yoe * 365 + yoe / 4 - yoe / 100 + doy) - 719468.

Definition is_leap (y : Z) : bool :=
  (y mod 4 =? 0) && (negb (y mod 100 =? 0) || (y mod 400 =? 0)).

Definition days_in_month (y m : Z) : Z :=
  if m =? 2 then (if is_leap y then 29 else 28)
  else if (m =? 4) || (m =? 6) || (m =? 9) || (m =? 11) then 30
  else 31.

Definition digits (s : list ascii) : option Z :=
  if forallb PyFloat.is_digit s
  then Some (PyFloat.number_of (map PyFloat.digit s))
  else None.

Definition date (s : string) : option datetime :=
  match PyFloat.chars s with
  | [y1; y2; y3; y4; "-"%char; m1; m2; "-"%char; d1; d2] =>
      y ← digits [y1; y2; y3; y4];
      m ← digits [m1; m2];
      d ← digits [d1; d2];
      if (1 <=? m) && (m <=? 12) && (1 <=? d) && (d <=? days_in_month y m)
      then Some (Timestamp (days_from_civil y m d * 86400 * 1000000000))
      else None
  | _ => None
  end.

Definition read (v : value) : option Z :=
  match v with
  | VStr s =>
      match date s with
      | Some (Timestamp ns) => Some ns
      | _ => None
      end
  | _ => None
  end.

Definition to_datetime_scalar : value -> result datetime := datetime_of read.

End Iso.

(** ** The conversion stated row by row *)

(** The definitions of this part say, for one row and one cell, what the
    column-wise calls of the script amount to; the theorems relate the
    script to them. *)

(** Whether the row has a cell under label [c]. *)
Fixpoint has_cell (c : value) (labels cells : list value) : bool :=
  match labels, cells with
  | l :: ls, _ :: vs => bool_decide (l = c) || has_cell c ls vs
  | _, _ => false
  end.

(** The rule of lines 21 to 23 for one cell. *)
Definition strip_percent (v : value) : value :=
  match v with
  | VStr x => VStr (pd.replace_char "%" "" x)
  | _ => NaN
  end.

Definition percent_cell (v : value) : result value :=
  f ← pd.float (strip_percent v); Ok (VFloat (Float.mul f Float.hundredth)).

(** The rule of lines 25 and 26 for one cell. *)
Definition float_cell (v : value) : result value :=
  f ← pd.float (if bool_decide (v = VStr "-") then NaN else v); Ok (VFloat f).

Definition percent_columns : list value :=
  [VStr "Contango 2/1"; VStr "Contango 7/4"; VStr "Con 7/4 div 3"].

(** A cell that is not text, or whose text is ASCII only. *)
Definition ascii_cell (v : value) : bool :=
  match v with
  | VStr s => PyFloat.is_ascii s
  | _ => true
  end.

(** The text without any of its ["%"] characters. *)
Definition without_percent (s : string) : string :=
  string_of_list_ascii
    (filter (fun ch => ch <> "%"%char) (list_ascii_of_string s)).


Definition cell_rule (c : value) (v : value) : result value :=
  if bool_decide (c ∈ percent_columns) then percent_cell v else float_cell v.

(** [df'] is [df] with rule [g] applied to the cells of column [c]. *)
Definition updated (c : value) (g : value -> result value) (df df' : DataFrame) : Prop :=
  columns df' = columns df /\
  Forall2 (fun r r' : row =>
             r'.1 = r.1 /\
             exists y, g (pd.cell c (columns df) r.2) = Ok y /\
                       r'.2 = pd.set_cell c y (columns df) r.2)
          (rows df) (rows df').

(** Row [r'] is row [r] after the loop has visited the labels [ls]. *)
Definition floated (ls cols : list value) (r r' : row) : Prop :=
  r'.1 = r.1 /\
  forall c,
    (c ∈ ls -> float_cell (pd.cell c cols r.2) = Ok (pd.cell c cols r'.2)) /\
    (c ∉ ls -> pd.cell c cols r'.2 = pd.cell c cols r.2).

(** Row [r'] is row [r] with every cell converted by the rule of its
    column. *)
Definition numbered (cols : list value) (r r' : row) : Prop :=
  r'.1 = r.1 /\
  forall c, c ∈ cols -> cell_rule c (pd.cell c cols r.2) = Ok (pd.cell c cols r'.2).

Section Rows.

Variable to_datetime_scalar : value -> result datetime.

Import pd.

Definition Date : value := VStr "Date".

(** Row [r'] is row [r] indexed by its date: the label is the parsed
    [Date] cell and the cell has left the row. *)
Definition dated (cols : list value) (r r' : row) : Prop :=
  exists t, to_datetime_scalar (cell Date cols r.2) = Ok t /\
            r'.1 = VTime t /\ r'.2 = del_cell Date cols r.2.

(** Row [r'] is what the script makes of the data row [r]. *)
Definition normal_row (cols : list value) (r r' : row) : Prop :=
  exists t, to_datetime_scalar (cell Date cols r.2) = Ok t /\
            r'.1 = VTime t /\
            forall c, c ∈ cols -> c <> Date ->
              cell_rule c (cell c cols r.2) =
              Ok (cell c (filter (fun l => l <> Date) cols) r'.2).

(** The [Date] cells of the data rows as [pd.to_datetime] reads them. *)
Definition dates (df : DataFrame) : result (list datetime) :=
  mapR to_datetime_scalar (map (fun r : row => cell Date (columns df) r.2) (rows df)).

(** Data rows the conversion accepts: the labels are distinct and
    include [Date] and the three percentage columns, every row has one
    cell per label, every [Date] cell can be parsed and every other cell
    can be converted by the rule of its column. *)
Definition convertible (df : DataFrame) : Prop :=
  NoDup (columns df) /\
  Date ∈ columns df /\
  (forall c, c ∈ percent_columns -> c ∈ columns df) /\
  Forall (fun r : row =>
            length r.2 = length (columns df) /\
            is_ok (to_datetime_scalar (cell Date (columns df) r.2)) = true /\
            forall c, c ∈ columns df -> c <> Date ->
              is_ok (cell_rule c (cell c (columns df) r.2)) = true)
         (rows df).


End Rows.

(** The row labels pandas gives a freshly read table: 0, 1, 2, ... *)
Definition default_index (df : DataFrame) : Prop :=
  (rows df).*1 = (fun i => VInt (Z.of_nat i)) <$> seq 0 (length (rows df)).

(** Every row has one cell per column. *)
Definition rectangular (df : DataFrame) : Prop :=
  Forall (fun r : row => length r.2 = length (columns df)) (rows df).

(** ** Concrete pages *)

(** A page as [pd.read_html] returns it: columns labelled 0 .. 4, rows
    labelled 0 .. n-1, every cell a text; the first row repeats the
    header and the last row is the footer. *)
Definition header : list string :=
  ["Date"; "F1"; "Contango 2/1"; "Contango 7/4"; "Con 7/4 div 3"].

Definition text_row (i : nat) (cells : list string) : row :=
  (VInt (Z.of_nat i), map VStr cells).

Definition page (body : list (list string)) : DataFrame :=
  mkDataFrame (map (fun i => VInt (Z.of_nat i)) (seq 0 5))
              (imap text_row (header :: body ++ [header])).

(** The float Python reads from a literal, and the timestamp of a day. *)
Definition lit (s : string) : value := VFloat (default Float.nan (PyFloat.parse s)).
Definition date_of (s : string) : datetime := default NaT (Iso.date s).
Definition day (s : string) : value := VTime (date_of s).

(** The file holds the table that was serialised. *)
Definition as_written (df : DataFrame) : DataFrame := df.

Definition disk : filesystem DataFrame := mkFS {["out"]} ∅.

Definition quotes : DataFrame :=
  page [ ["2020-01-02"; "-"; "10%"; "20%"; "30%"];
         ["2020-01-01"; "12.5"; "35%"; "1%2%"; "-1.5%"] ].

Definition quotes_data : DataFrame :=
  mkDataFrame (map VStr header)
    [ text_row 1 ["2020-01-02"; "-"; "10%"; "20%"; "30%"];
      text_row 2 ["2020-01-01"; "12.5"; "35%"; "1%2%"; "-1.5%"] ].

Definition quotes_out : DataFrame :=
  mkDataFrame
    [VStr "F1"; VStr "Contango 2/1"; VStr "Contango 7/4"; VStr "Con 7/4 div 3"]
    [ (day "2020-01-01",
       [lit "12.5"; lit "0.35000000000000003"; lit "0.12"; lit "-0.015"]);
      (day "2020-01-02", [NaN; lit "0.1"; lit "0.2"; lit "0.3"]) ].

(** Two data rows with the same date. *)
Definition same_day : DataFrame :=
  page [ ["2020-01-02"; "14.1"; "10%"; "20%"; "30%"];
         ["2020-01-02"; "12.5"; "35%"; "25%"; "-1.5%"] ].

Definition same_day_data : DataFrame :=
  mkDataFrame (map VStr header)
    [ text_row 1 ["2020-01-02"; "14.1"; "10%"; "20%"; "30%"];
      text_row 2 ["2020-01-02"; "12.5"; "35%"; "25%"; "-1.5%"] ].

Definition same_day_out : DataFrame :=
  mkDataFrame
    [VStr "F1"; VStr "Contango 2/1"; VStr "Contango 7/4"; VStr "Con 7/4 div 3"]
    [ (day "2020-01-02", [lit "14.1"; lit "0.1"; lit "0.2"; lit "0.3"]);
      (day "2020-01-02",
       [lit "12.5"; lit "0.35000000000000003"; lit "0.25"; lit "-0.015"]) ].

(** A ["-"] in a percentage column. *)
Definition dash_percent : DataFrame :=
  page [ ["2020-01-02"; "14.1"; "-"; "20%"; "30%"] ].

Definition dash_percent_data : DataFrame :=
  mkDataFrame (map VStr header)
    [ text_row 1 ["2020-01-02"; "14.1"; "-"; "20%"; "30%"] ].

(** A date that cannot be read. *)
Definition bad_date : DataFrame :=
  page [ ["2020-01-02"; "14.1"; "10%"; "20%"; "30%"];
         ["n/a"; "12.5"; "35%"; "25%"; "-1.5%"] ].

Definition bad_date_data : DataFrame :=
  mkDataFrame (map VStr header)
    [ text_row 1 ["2020-01-02"; "14.1"; "10%"; "20%"; "30%"];
      text_row 2 ["n/a"; "12.5"; "35%"; "25%"; "-1.5%"] ].

(** Pages with other headers and with missing cells: the labelled rows
    of [header_row :: body ++ [header_row]]. *)
Definition table_of (header_row : list value) (body : list (list value)) : DataFrame :=
  mkDataFrame (map (fun i => VInt (Z.of_nat i)) (seq 0 (length header_row)))
              (imap (fun i cells => (VInt (Z.of_nat i), cells))
                    (header_row :: body ++ [header_row])).

(** No [Date] column: the first column is named [Day]. *)
Definition no_date : DataFrame :=
  table_of (map VStr ["Day"; "F1"; "Contango 2/1"; "Contango 7/4"; "Con 7/4 div 3"])
           [map VStr ["2020-01-02"; "14.1"; "10%"; "20%"; "30%"]].

Definition no_date_data : DataFrame :=
  mkDataFrame (map VStr ["Day"; "F1"; "Contango 2/1"; "Contango 7/4"; "Con 7/4 div 3"])
    [ text_row 1 ["2020-01-02"; "14.1"; "10%"; "20%"; "30%"] ].

(** No [Contango 7/4] column. *)
Definition no_contango : DataFrame :=
  table_of (map VStr ["Date"; "F1"; "Contango 2/1"; "Con 7/4 div 3"])
           [map VStr ["2020-01-02"; "14.1"; "10%"; "30%"]].

Definition no_contango_data : DataFrame :=
  mkDataFrame (map VStr ["Date"; "F1"; "Contango 2/1"; "Con 7/4 div 3"])
    [ text_row 1 ["2020-01-02"; "14.1"; "10%"; "30%"] ].

(** Only the header row. *)
Definition header_only : DataFrame :=
  mkDataFrame (map (fun i => VInt (Z.of_nat i)) (seq 0 5))
              [text_row 0 header].

(** A ["%"] in a column that is not a percentage column. *)
Definition percent_in_price : DataFrame :=
  page [ ["2020-01-02"; "5%"; "10%"; "20%"; "30%"] ].

Definition percent_in_price_data : DataFrame :=
  mkDataFrame (map VStr header)
    [ text_row 1 ["2020-01-02"; "5%"; "10%"; "20%"; "30%"] ].

(** Missing cells: the first and the third data row have no date, the
    second no value in [F1] and in [Contango 7/4]. *)
Definition gaps : DataFrame :=
  table_of (map VStr header)
    [ [NaN; VStr "13.9"; VStr "10%"; VStr "20%"; VStr "30%"];
      [VStr "2020-01-02"; NaN; VStr "10%"; NaN; VStr "30%"];
      [NaN; VStr "14.2"; VStr "1%"; VStr "2%"; VStr "3%"] ].

Definition gaps_data : DataFrame :=
  mkDataFrame (map VStr header)
    [ (VInt 1, [NaN; VStr "13.9"; VStr "10%"; VStr "20%"; VStr "30%"]);
      (VInt 2, [VStr "2020-01-02"; NaN; VStr "10%"; NaN; VStr "30%"]);
      (VInt 3, [NaN; VStr "14.2"; VStr "1%"; VStr "2%"; VStr "3%"]) ].

Definition gaps_out : DataFrame :=
  mkDataFrame
    [VStr "F1"; VStr "Contango 2/1"; VStr "Contango 7/4"; VStr "Con 7/4 div 3"]
    [ (day "2020-01-02", [NaN; lit "0.1"; NaN; lit "0.3"]);
      (VTime NaT, [lit "13.9"; lit "0.1"; lit "0.2"; lit "0.3"]);
      (VTime NaT, [lit "14.2"; lit "0.01"; lit "0.02"; lit "0.03"]) ].

(** Missing dates written in three ways: an empty text, an empty cell
    and the text ["NaT"]. *)
Definition blank_dates : DataFrame :=
  table_of (map VStr header)
    [ [VStr ""; VStr "13.9"; VStr "10%"; VStr "20%"; VStr "30%"];
      [VStr "2020-01-02"; VStr "12.5"; VStr "10%"; VStr "20%"; VStr "30%"];
      [NaN; VStr "14.2"; VStr "1%"; VStr "2%"; VStr "3%"];
      [VStr "NaT"; VStr "14.1"; VStr "10%"; VStr "20%"; VStr "30%"] ].

Definition blank_dates_data : DataFrame :=
  mkDataFrame (map VStr header)
    [ (VInt 1, [VStr ""; VStr "13.9"; VStr "10%"; VStr "20%"; VStr "30%"]);
      (VInt 2, [VStr "2020-01-02"; VStr "12.5"; VStr "10%"; VStr "20%"; VStr "30%"]);
      (VInt 3, [NaN; VStr "14.2"; VStr "1%"; VStr "2%"; VStr "3%"]);
      (VInt 4, [VStr "NaT"; VStr "14.1"; VStr "10%"; VStr "20%"; VStr "30%"]) ].

Definition blank_dates_out : DataFrame :=
  mkDataFrame
    [VStr "F1"; VStr "Contango 2/1"; VStr "Contango 7/4"; VStr "Con 7/4 div 3"]
    [ (day "2020-01-02", [lit "12.5"; lit "0.1"; lit "0.2"; lit "0.3"]);
      (VTime NaT, [lit "13.9"; lit "0.1"; lit "0.2"; lit "0.3"]);
      (VTime NaT, [lit "14.2"; lit "0.01"; lit "0.02"; lit "0.03"]);
      (VTime NaT, [lit "14.1"; lit "0.1"; lit "0.2"; lit "0.3"]) ].


(** A folder in which the path of the file is a directory. *)
Definition blocked_disk : filesystem DataFrame :=
  mkFilesystem {["out"; "out/vix_contago.csv"]} ∅ ∅.


(** The page [quotes] with other labels on its columns and another footer. *)
Definition quotes_relabelled : DataFrame :=
  mkDataFrame (map VStr ["a"; "b"; "c"; "d"; "e"])
    [ text_row 0 header;
      text_row 1 ["2020-01-02"; "-"; "10%"; "20%"; "30%"];
      text_row 2 ["2020-01-01"; "12.5"; "35%"; "1%2%"; "-1.5%"];
      text_row 3 ["Total"; ""; ""; ""; ""] ].

(** * Properties *)

(** ** The error monad *)

Lemma bind_Ok {A B} (m : result A) (k : A -> result B) (b : B) :
  (m ≫= k) = Ok b <-> exists a, m = Ok a /\ k a = Ok b.
Proof.
  destruct m as [a|e]; simpl; split.
  - intros H. exists a. split; [reflexivity | exact H].
  - intros (a' & Ha & Hk). injection Ha as ->. exact Hk.
  - discriminate.
  - intros (a' & Ha & _). discriminate.
Qed.

(** Splits every hypothesis [(x ← m; k) = Ok b] into its two steps. *)
Ltac inv_bind :=
  repeat match goal with
  | H : (_ ≫= _) = Ok _ |- _ =>
      apply bind_Ok in H; destruct H as (? & ? & H)
  | H : Ok _ = Ok _ |- _ => injection H as H; try subst
  | H : Raise _ = Ok _ |- _ => discriminate H
  end.

Lemma mapR_Ok {A B} (f : A -> result B) (l : list A) (l' : list B) :
  mapR f l = Ok l' <-> Forall2 (fun x y => f x = Ok y) l l'.
Proof.
  revert l'. induction l as [|x l IH]; intros l'; simpl.
  - split.
    + intros H. injection H as <-. constructor.
    + intros H. inversion H. reflexivity.
  - split.
    + intros H. inv_bind. constructor; [assumption | by apply IH].
    + intros H. inversion H as [|? y ? ys Hx Hl]; subst.
      rewrite Hx. simpl. apply IH in Hl. rewrite Hl. reflexivity.
Qed.

Lemma Forall2_and_r {A B} (P : A -> B -> Prop) (Q : B -> Prop) l k :
  Forall2 P l k -> Forall Q k -> Forall2 (fun x y => P x y /\ Q y) l k.
Proof.
  induction 1 as [|x y l k Hxy _ IH]; intros HQ; [constructor|].
  apply Forall_cons in HQ as [Hy HQ]. constructor; [done | by apply IH].
Qed.

Lemma Forall2_compose {A B C} (P : A -> B -> Prop) (Q : B -> C -> Prop) l k m :
  Forall2 P l k -> Forall2 Q k m ->
  Forall2 (fun x z => exists y, P x y /\ Q y z) l m.
Proof. apply Forall2_trans. intros x y z ? ?. by exists y. Qed.

(** A relation between two lists of rows survives a reordering of the
    first list, up to the same reordering of the second. *)
Lemma Forall2_Permutation_l {A B} (R : A -> B -> Prop) (l1 l1' : list A) (l2 : list B) :
  Forall2 R l1 l2 -> l1 ≡ₚ l1' -> exists l2', Forall2 R l1' l2' /\ l2 ≡ₚ l2'.
Proof.
  intros HF HP. revert l2 HF.
  induction HP as [|x l l' _ IH|x y l|l l' l'' _ IH1 _ IH2]; intros l2 HF.
  - inversion HF; subst. exists []. by split.
  - inversion HF as [|? b ? k Hx Hl]; subst.
    destruct (IH _ Hl) as (k' & HF' & HP').
    exists (b :: k'). split; [by constructor | by constructor].
  - inversion HF as [|? b ? k Hy Hl]; subst.
    inversion Hl as [|? b' ? k' Hx Hl']; subst.
    exists (b' :: b :: k'). split; [by repeat constructor | by constructor].
  - destruct (IH1 _ HF) as (k1 & HF1 & HP1).
    destruct (IH2 _ HF1) as (k2 & HF2 & HP2).
    exists k2. split; [assumption | by etrans].
Qed.

(** ** Rounding to binary64 *)

(** The error of one rounding, and of the three roundings between the
    text of a percentage and the float that is written. *)

Section Rounding.
Import Float.
Local Open Scope Q_scope.

Lemma two_neq_0 : ~ 2 == 0.
Proof. discriminate. Qed.

Lemma pow2_pos (e : Z) : 0 < 2 ^ e.
Proof. apply Qpower_0_lt. reflexivity. Qed.

Lemma pow2_add (a b : Z) : 2 ^ (a + b) == 2 ^ a * 2 ^ b.
Proof. apply Qpower_plus, two_neq_0. Qed.

Lemma pow2_Z (a : Z) : (0 <= a)%Z -> inject_Z (2 ^ a) == 2 ^ a.
Proof. intros Ha. apply (Zpower_Qpower 2 a Ha). Qed.

Lemma pow2_le (a b : Z) : (a <= b)%Z -> 2 ^ a <= 2 ^ b.
Proof. intros H. apply Qpower_le_compat_l; [exact H | discriminate]. Qed.

Lemma pow2_lt_inv (a b : Z) : 2 ^ a < 2 ^ b -> (a < b)%Z.
Proof. intros H. apply (Qpower_lt_compat_l_inv 2); [exact H | reflexivity]. Qed.

Lemma pow2_opp (a : Z) : 2 ^ (- a) * 2 ^ a == 1.
Proof. rewrite <- pow2_add. replace (- a + a)%Z with 0%Z by lia. reflexivity. Qed.

Lemma inject_Z_pos (z : Z) : (0 < z)%Z -> 0 < inject_Z z.
Proof. intros H. change 0 with (inject_Z 0). rewrite <- Zlt_Qlt. exact H. Qed.

Lemma round_div_near (n d : Z) :
  (0 < d)%Z -> (2 * Z.abs (round_div n d * d - n) <= d)%Z.
Proof.
  intros Hd. unfold round_div.
  pose proof (Z.div_mod n d ltac:(lia)) as Hn.
  pose proof (Z.mod_pos_bound n d Hd) as Hr.
  destruct (Z.ltb_spec (2 * (n mod d)) d).
  - nia.
  - destruct (Z.ltb_spec d (2 * (n mod d))).
    + nia.
    + destruct (Z.even (n / d)); nia.
Qed.

Lemma round_div_Q (n d : Z) (x : Q) :
  (0 < d)%Z -> x * inject_Z d == inject_Z n ->
  - (1 # 2) <= inject_Z (round_div n d) - x <= 1 # 2.
Proof.
  intros Hd Hx. pose proof (round_div_near n d Hd) as H.
  assert (HD : 0 < inject_Z d) by (apply inject_Z_pos, Hd).
  set (m := round_div n d) in *.
  assert (H1 : (2 * n <= 2 * (m * d) + d)%Z) by lia.
  assert (H2 : (2 * (m * d) <= 2 * n + d)%Z) by lia.
  rewrite Zle_Qle in H1, H2.
  rewrite !inject_Z_plus, !inject_Z_mult in H1, H2.
  rewrite <- Hx in H1, H2.
  change (inject_Z 2) with 2 in *.
  split; nra.
Qed.

Lemma ilog2_spec (p q : Z) :
  (0 < p)%Z -> (0 < q)%Z ->
  2 ^ ilog2 p q <= inject_Z p / inject_Z q < 2 ^ (ilog2 p q + 1).
Proof.
  intros Hp Hq.
  assert (HP : 0 < inject_Z p) by (apply inject_Z_pos, Hp).
  assert (HQ : 0 < inject_Z q) by (apply inject_Z_pos, Hq).
  destruct (Z.log2_spec p Hp) as [Hp1 Hp2].
  destruct (Z.log2_spec q Hq) as [Hq1 Hq2].
  pose proof (Z.log2_nonneg p) as Hlp. pose proof (Z.log2_nonneg q) as Hlq.
  rewrite Zle_Qle in Hp1, Hq1. rewrite Zlt_Qlt in Hp2, Hq2.
  rewrite pow2_Z in Hp1, Hq1, Hp2, Hq2 by lia.
  replace (Z.succ (Z.log2 p)) with (Z.log2 p + 1)%Z in Hp2 by lia.
  replace (Z.succ (Z.log2 q)) with (Z.log2 q + 1)%Z in Hq2 by lia.
  unfold ilog2.
  set (lp := Z.log2 p) in *. set (lq := Z.log2 q) in *.
  set (k := (lp - lq)%Z).
  assert (Hk1 : 2 ^ (k + 1) * 2 ^ lq == 2 ^ (lp + 1)).
  { rewrite <- pow2_add. replace (k + 1 + lq)%Z with (lp + 1)%Z by (unfold k; lia).
    reflexivity. }
  assert (Hk2 : 2 ^ (k - 1) * 2 ^ (lq + 1) == 2 ^ lp).
  { rewrite <- pow2_add. replace (k - 1 + (lq + 1))%Z with lp by (unfold k; lia).
    reflexivity. }
  assert (Hk3 : 2 ^ (k - 1 + 1) == 2 ^ k).
  { replace (k - 1 + 1)%Z with k by lia. reflexivity. }
  pose proof (pow2_pos (k + 1)) as Hpk1. pose proof (pow2_pos (k - 1)) as Hpk2.
  pose proof (pow2_pos lq) as Hplq. pose proof (pow2_pos k) as Hpk.
  assert (Htest : (if 0 <=? k then q * 2 ^ k <=? p else q <=? p * 2 ^ (- k))%Z = true
                  <-> 2 ^ k * inject_Z q <= inject_Z p).
  { destruct (Z.leb_spec 0 k) as [Hk|Hk].
    - rewrite Z.leb_le, Zle_Qle, inject_Z_mult, pow2_Z by lia.
      rewrite (Qmult_comm (inject_Z q)). reflexivity.
    - rewrite Z.leb_le, Zle_Qle, inject_Z_mult, pow2_Z by lia.
      pose proof (pow2_opp k) as Ho. pose proof (pow2_pos (- k)) as Hpo.
      split; intros H.
      + apply (Qmult_le_r _ _ (2 ^ (- k))); [exact Hpo|].
        setoid_replace (2 ^ k * inject_Z q * 2 ^ (- k))
          with (inject_Z q * (2 ^ (- k) * 2 ^ k))
          using relation Qeq by ring.
        rewrite Ho, Qmult_1_r. exact H.
      + apply (Qmult_le_r _ _ (2 ^ (- k))) in H; [|exact Hpo].
        setoid_replace (2 ^ k * inject_Z q * 2 ^ (- k))
          with (inject_Z q * (2 ^ (- k) * 2 ^ k))
          using relation Qeq in H by ring.
        rewrite Ho, Qmult_1_r in H. exact H. }
  destruct (if 0 <=? k then q * 2 ^ k <=? p else q <=? p * 2 ^ (- k))%Z eqn:Ht.
  - assert (Hle : 2 ^ k * inject_Z q <= inject_Z p) by (apply Htest; reflexivity).
    split.
    + apply Qle_shift_div_l; assumption.
    + apply Qlt_shift_div_r; [assumption|].
      apply Qlt_le_trans with (2 ^ (lp + 1)); [exact Hp2|].
      rewrite <- Hk1. apply Qmult_le_l; [exact Hpk1 | exact Hq1].
  - assert (Hlt : inject_Z p < 2 ^ k * inject_Z q).
    { apply Qnot_le_lt. intros H. apply Htest in H. discriminate. }
    split.
    + apply Qle_shift_div_l; [assumption|].
      apply Qle_trans with (2 ^ lp); [|exact Hp1].
      rewrite <- Hk2. apply Qmult_le_l; [exact Hpk2 | apply Qlt_le_weak, Hq2].
    + apply Qlt_shift_div_r; [assumption|]. rewrite Hk3. exact Hlt.
Qed.

Lemma Qdiv_inject (p q : Z) :
  (0 < q)%Z -> inject_Z p / inject_Z q * inject_Z q == inject_Z p.
Proof.
  intros Hq. rewrite Qmult_comm. apply Qmult_div_r.
  intros H. apply inject_Z_pos in Hq. rewrite H in Hq. discriminate.
Qed.

Lemma of_ratio_normal (neg : bool) (p q : Z) :
  (0 < p)%Z -> (0 < q)%Z ->
  2 ^ (-1022) <= inject_Z p / inject_Z q ->
  inject_Z p / inject_Z q < 2 ^ 1023 ->
  exists m e,
    of_ratio neg p q = S754_finite neg m e /\
    (1 - u) * (inject_Z p / inject_Z q) <= inject_Z (Z.pos m) * 2 ^ e
      <= (1 + u) * (inject_Z p / inject_Z q).
Proof.
  intros Hp Hq Hlo Hhi.
  pose proof (Qdiv_inject p q Hq) as HPq.
  destruct (ilog2_spec p q Hp Hq) as [HL1 HL2].
  set (P := inject_Z p / inject_Z q) in *.
  set (L := ilog2 p q) in *.
  assert (HLlo : (-1022 <= L)%Z).
  { assert (H : (-1022 < L + 1)%Z); [|lia].
    apply pow2_lt_inv. eapply Qle_lt_trans; eassumption. }
  assert (HLhi : (L <= 1022)%Z).
  { assert (H : (L < 1023)%Z); [|lia].
    apply pow2_lt_inv. eapply Qle_lt_trans; eassumption. }
  unfold of_ratio. fold L. rewrite Z.max_l by lia.
  set (e := (L - 52)%Z).
  set (S := P * 2 ^ (- e)).
  pose proof (pow2_pos e) as HE. pose proof (pow2_pos (- e)) as HE'.
  pose proof (pow2_opp e) as HEE.
  assert (HSE : S * 2 ^ e == P).
  { unfold S. rewrite <- Qmult_assoc, HEE. ring. }
  assert (HT : 2 ^ L * 2 ^ (- e) == inject_Z 4503599627370496).
  { rewrite <- pow2_add. replace (L + - e)%Z with 52%Z by (unfold e; lia).
    reflexivity. }
  assert (HS1 : inject_Z 4503599627370496 <= S).
  { rewrite <- HT. unfold S. apply Qmult_le_compat_r; [exact HL1|].
    apply Qlt_le_weak, HE'. }
  assert (HS2 : S < inject_Z 9007199254740992).
  { setoid_replace (inject_Z 9007199254740992)
    with (2 ^ (L + 1) * 2 ^ (- e))
    using relation Qeq.
    - unfold S. apply Qmult_lt_compat_r; assumption.
    - rewrite <- pow2_add. replace (L + 1 + - e)%Z with 53%Z by (unfold e; lia).
      reflexivity. }
  set (m0 := if (0 <=? e)%Z then round_div p (q * 2 ^ e)
             else round_div (p * 2 ^ (- e)) q).
  assert (Hm : - (1 # 2) <= inject_Z m0 - S <= 1 # 2).
  { unfold m0. destruct (Z.leb_spec 0 e) as [He|He].
    - apply round_div_Q.
      + apply Z.mul_pos_pos; [exact Hq | apply Z.pow_pos_nonneg; lia].
      + rewrite inject_Z_mult, pow2_Z by lia.
        setoid_replace (S * (inject_Z q * 2 ^ e))
          with (S * 2 ^ e * inject_Z q)
          using relation Qeq by ring.
        rewrite HSE. exact HPq.
    - apply round_div_Q; [exact Hq|].
      rewrite inject_Z_mult, pow2_Z by lia. unfold S.
      setoid_replace (P * 2 ^ (- e) * inject_Z q)
        with (P * inject_Z q * 2 ^ (- e))
        using relation Qeq by ring.
      rewrite HPq. reflexivity. }
  destruct Hm as [Hm1 Hm2].
  assert (Hm0 : (4503599627370496 <= m0 <= 9007199254740992)%Z).
  { split.
    - assert (H : (4503599627370496 - 1 < m0)%Z); [|lia].
      rewrite Zlt_Qlt. unfold Z.sub; rewrite inject_Z_plus.
      change (inject_Z (- (1))) with (- (1)). lra.
    - assert (H : (m0 < 9007199254740992 + 1)%Z); [|lia].
      rewrite Zlt_Qlt, inject_Z_plus. change (inject_Z 1) with 1. lra. }
  assert (Hu : u * inject_Z 4503599627370496 == 1 # 2) by reflexivity.
  assert (Herr : (1 - u) * P <= inject_Z m0 * 2 ^ e <= (1 + u) * P).
  { rewrite <- HSE.
    set (E := 2 ^ e) in *. set (M := inject_Z m0) in *.
    set (T := inject_Z 4503599627370496) in *.
    assert (H1 : 0 <= (S - T) * E) by (apply Qmult_le_0_compat; lra).
    assert (H2 : 0 <= ((1 # 2) - (M - S)) * E)
      by (apply Qmult_le_0_compat; lra).
    assert (H3 : 0 <= ((M - S) + (1 # 2)) * E)
      by (apply Qmult_le_0_compat; lra).
    assert (H4 : u * (S - T) * E == u * ((S - T) * E)) by ring.
    assert (H5 : 0 <= u * ((S - T) * E))
      by (apply Qmult_le_0_compat; [discriminate | exact H1]).
    assert (H6 : u * (S - T) * E == u * S * E - (1 # 2) * E).
    { setoid_replace (u * (S - T) * E)
      with (u * S * E - (u * T) * E)
      using relation Qeq by ring.
      rewrite Hu. reflexivity. }
    split; lra. }
  destruct (Z.eqb_spec m0 0) as [H0|H0]; [lia|].
  destruct (Z.eqb_spec m0 (2 ^ 53)) as [H53|H53].
  - destruct (Z.ltb_spec 971 (e + 1)) as [He|He]; [unfold e in He; lia|].
    exists (Z.to_pos (2 ^ 52)), (e + 1)%Z. split; [reflexivity|].
    rewrite H53 in Herr.
    setoid_replace (inject_Z (Z.pos (Z.to_pos (2 ^ 52))) * 2 ^ (e + 1))
      with (inject_Z (2 ^ 53) * 2 ^ e)
      using relation Qeq; [exact Herr|].
    rewrite (Z.add_comm e 1), pow2_add. 
    change (2 ^ 1) with 2.
    change (inject_Z (Z.pos (Z.to_pos (2 ^ 52)))) with (inject_Z 4503599627370496).
    change (inject_Z (2 ^ 53)) with (inject_Z 9007199254740992).
    setoid_replace (inject_Z 9007199254740992)
      with (inject_Z 4503599627370496 * 2)
      using relation Qeq
      by reflexivity.
    ring.
  - destruct (Z.ltb_spec 971 e) as [He|He]; [unfold e in He; lia|].
    exists (Z.to_pos m0), e. split; [reflexivity|].
    rewrite Z2Pos.id by lia. exact Herr.
Qed.

Lemma of_decimal_normal (neg : bool) (m e : Z) :
  (0 < m)%Z ->
  2 ^ (-1022) <= inject_Z m * 10 ^ e ->
  inject_Z m * 10 ^ e < 2 ^ 1023 ->
  exists mf ef,
    of_decimal neg m e = S754_finite neg mf ef /\
    (1 - u) * (inject_Z m * 10 ^ e) <= inject_Z (Z.pos mf) * 2 ^ ef
      <= (1 + u) * (inject_Z m * 10 ^ e).
Proof.
  intros Hm Hlo Hhi. unfold of_decimal.
  destruct (Z.eqb_spec m 0) as [H0|_]; [lia|].
  destruct (Z.leb_spec 0 e) as [He|He].
  - assert (Heq : inject_Z (m * 10 ^ e) / inject_Z 1 == inject_Z m * 10 ^ e).
    { rewrite inject_Z_mult, (Zpower_Qpower 10 e He).
      change (inject_Z 1) with 1. change (inject_Z 10) with 10. field. }
    destruct (of_ratio_normal neg (m * 10 ^ e) 1) as (mf & ef & Hf & Hb).
    + apply Z.mul_pos_pos; [exact Hm | apply Z.pow_pos_nonneg; lia].
    + lia.
    + rewrite Heq. exact Hlo.
    + rewrite Heq. exact Hhi.
    + exists mf, ef. split; [exact Hf|]. rewrite Heq in Hb. exact Hb.
  - assert (Hpos : (0 < 10 ^ (- e))%Z) by (apply Z.pow_pos_nonneg; lia).
    assert (Heq : inject_Z m / inject_Z (10 ^ (- e)) == inject_Z m * 10 ^ e).
    { rewrite (Zpower_Qpower 10 (- e)) by lia. change (inject_Z 10) with 10.
      rewrite Qpower_opp. unfold Qdiv. rewrite Qinv_involutive. reflexivity. }
    destruct (of_ratio_normal neg m (10 ^ (- e))) as (mf & ef & Hf & Hb).
    + exact Hm.
    + exact Hpos.
    + rewrite Heq. exact Hlo.
    + rewrite Heq. exact Hhi.
    + exists mf, ef. split; [exact Hf|]. rewrite Heq in Hb. exact Hb.
Qed.

Lemma mul_normal (sx sy : bool) (mx my : positive) (ex ey : Z) :
  let P := inject_Z (Z.pos mx) * 2 ^ ex * (inject_Z (Z.pos my) * 2 ^ ey) in
  2 ^ (-1022) <= P -> P < 2 ^ 1023 ->
  exists m e,
    mul (S754_finite sx mx ex) (S754_finite sy my ey)
      = S754_finite (xorb sx sy) m e /\
    (1 - u) * P <= inject_Z (Z.pos m) * 2 ^ e <= (1 + u) * P.
Proof.
  intros P Hlo Hhi. unfold mul.
  assert (HP : P == inject_Z (Z.pos mx * Z.pos my) * 2 ^ (ex + ey)).
  { unfold P. rewrite inject_Z_mult, pow2_add. ring. }
  destruct (Z.leb_spec 0 (ex + ey)) as [He|He].
  - assert (Heq : inject_Z (Z.pos mx * Z.pos my * 2 ^ (ex + ey)) / inject_Z 1
                  == P).
    { rewrite HP, inject_Z_mult, (pow2_Z _ He).
      change (inject_Z 1) with 1. field. }
    destruct (of_ratio_normal (xorb sx sy) (Z.pos mx * Z.pos my * 2 ^ (ex + ey)) 1)
      as (m & e & Hf & Hb).
    + apply Z.mul_pos_pos; [lia | apply Z.pow_pos_nonneg; lia].
    + lia.
    + rewrite Heq. exact Hlo.
    + rewrite Heq. exact Hhi.
    + exists m, e. split; [exact Hf|]. rewrite Heq in Hb. exact Hb.
  - assert (Hpos : (0 < 2 ^ (- (ex + ey)))%Z) by (apply Z.pow_pos_nonneg; lia).
    assert (Heq : inject_Z (Z.pos mx * Z.pos my) / inject_Z (2 ^ (- (ex + ey)))
                  == P).
    { rewrite HP, pow2_Z by lia.
      rewrite Qpower_opp. unfold Qdiv. rewrite Qinv_involutive. reflexivity. }
    destruct (of_ratio_normal (xorb sx sy) (Z.pos mx * Z.pos my)
                (2 ^ (- (ex + ey)))) as (m & e & Hf & Hb).
    + lia.
    + exact Hpos.
    + rewrite Heq. exact Hlo.
    + rewrite Heq. exact Hhi.
    + exists m, e. split; [exact Hf|]. rewrite Heq in Hb. exact Hb.
Qed.

Ltac qlra := unfold u in *; lra.

Lemma hundredth_near :
  (1 - u) * (1 # 100) <= inject_Z 5764607523034235 * 2 ^ (-59)
    <= (1 + u) * (1 # 100).
Proof. split; vm_compute; discriminate. Qed.

Lemma percent_error (neg : bool) (m e : Z) :
  (m = 0%Z \/ 2 ^ (-1000) <= inject_Z m * 10 ^ e <= 2 ^ 1000) ->
  exists v,
    value (mul (of_decimal neg m e) hundredth) = Some v /\
    Qabs (v - decimal_value neg m e / 100)
      <= 2 ^ (-51) * Qabs (decimal_value neg m e / 100).
Proof.
  intros [H0|[Hlo Hhi]].
  - subst m. exists 0. split; [destruct neg; reflexivity|].
    unfold decimal_value. change (inject_Z 0) with 0.
    setoid_replace ((if neg then - (1) else 1) * 0 * 10 ^ e / 100)
      with 0
      using relation Qeq
      by (destruct neg; field).
    vm_compute. discriminate.
  - set (D := inject_Z m * 10 ^ e) in *.
    assert (HD : 0 < D).
    { eapply Qlt_le_trans; [apply (pow2_pos (-1000)) | exact Hlo]. }
    assert (Hm' : (0 < m)%Z).
    { rewrite Zlt_Qlt. change (inject_Z 0) with 0.
      assert (H10 : 0 < 10 ^ e) by (apply Qpower_0_lt; reflexivity).
      destruct (Qlt_le_dec 0 (inject_Z m)) as [|Hle]; [assumption|].
      exfalso. apply (Qlt_not_le _ _ HD). unfold D.
      setoid_replace 0 with (0 * 10 ^ e) using relation Qeq by ring.
      apply Qmult_le_compat_r; [exact Hle | apply Qlt_le_weak, H10]. }
    assert (Ha : 2 ^ (-1022) <= 2 ^ (-1000)) by (apply pow2_le; lia).
    assert (Hb : 2 ^ 1000 < 2 ^ 1023)
      by (apply Qpower_lt_compat_l; [lia | reflexivity]).
    destruct (of_decimal_normal neg m e Hm') as (mf & ef & Hf & Hf1 & Hf2).
    { fold D. eapply Qle_trans; eassumption. }
    { fold D. eapply Qle_lt_trans; eassumption. }
    fold D in Hf1, Hf2. rewrite Hf. unfold hundredth.
    pose proof hundredth_near as [Hc1 Hc2].
    set (F := inject_Z (Z.pos mf) * 2 ^ ef) in *.
    set (C := inject_Z 5764607523034235 * 2 ^ (-59)) in *.
    assert (Hu1 : 1 # 2 <= 1 - u) by (vm_compute; discriminate).
    assert (Hu2 : 1 + u <= 2) by (vm_compute; discriminate).
    assert (Hu3 : 0 <= u) by discriminate.
    unfold u in *.
    assert (HF : 0 < F) by qlra.
    assert (HC : 0 < C) by qlra.
    assert (HFC1 : (1 - u) * D * ((1 - u) * (1 # 100)) <= F * C).
    { apply Qmult_le_compat_nonneg; split;
        first [assumption | qlra | apply Qmult_le_0_compat; qlra]. }
    assert (HFC2 : F * C <= (1 + u) * D * ((1 + u) * (1 # 100))).
    { apply Qmult_le_compat_nonneg; split;
        first [assumption | qlra | apply Qmult_le_0_compat; qlra]. }
    assert (Hc : 2 ^ (-1022) <= (1 # 400) * 2 ^ (-1000)).
    { setoid_replace (2 ^ (-1022))
      with ((1 # 4194304) * 2 ^ (-1000))
      using relation Qeq.
      - apply Qmult_le_compat_r; [discriminate | apply Qlt_le_weak, pow2_pos].
      - replace (-1022)%Z with (-22 + -1000)%Z by lia. rewrite pow2_add.
        reflexivity. }
    assert (Hsq1 : (1 # 400) * D <= (1 - u) * D * ((1 - u) * (1 # 100))).
    { setoid_replace ((1 - u) * D * ((1 - u) * (1 # 100)))
      with ((1 - u) * (1 - u) * (1 # 100) * D)
      using relation Qeq by ring.
      apply Qmult_le_compat_r; [vm_compute; discriminate | qlra]. }
    assert (Hsq2 : (1 + u) * D * ((1 + u) * (1 # 100)) <= D).
    { setoid_replace ((1 + u) * D * ((1 + u) * (1 # 100)))
      with ((1 + u) * (1 + u) * (1 # 100) * D)
      using relation Qeq by ring.
      setoid_replace D with (1 * D) using relation Qeq at 2 by ring.
      apply Qmult_le_compat_r; [vm_compute; discriminate | qlra]. }
    destruct (mul_normal neg false mf 5764607523034235 ef (-59))
      as (mo & eo & Ho & Ho1 & Ho2).
    { fold F C. generalize dependent (2 ^ (-1000)). intros. qlra. }
    { fold F C. generalize dependent (2 ^ 1000). intros. qlra. }
    fold F C in Ho1, Ho2. rewrite Ho. cbn [value].
    eexists. split; [reflexivity|].
    set (V := inject_Z (Z.pos mo) * 2 ^ eo) in *.
    assert (HV1 : (1 - u) * ((1 - u) * D * ((1 - u) * (1 # 100))) <= V).
    { eapply Qle_trans; [|exact Ho1]. apply Qmult_le_l; qlra. }
    assert (HV2 : V <= (1 + u) * ((1 + u) * D * ((1 + u) * (1 # 100)))).
    { eapply Qle_trans; [exact Ho2|]. apply Qmult_le_l; qlra. }
    assert (Hk1 : (1 - 2 ^ (-51)) * (D * (1 # 100))
                  <= (1 - u) * ((1 - u) * D * ((1 - u) * (1 # 100)))).
    { setoid_replace ((1 - u) * ((1 - u) * D * ((1 - u) * (1 # 100))))
      with ((1 - u) * (1 - u) * (1 - u) * (D * (1 # 100)))
      using relation Qeq by ring.
      apply Qmult_le_compat_r; [vm_compute; discriminate | qlra]. }
    assert (Hk2 : (1 + u) * ((1 + u) * D * ((1 + u) * (1 # 100)))
                  <= (1 + 2 ^ (-51)) * (D * (1 # 100))).
    { setoid_replace ((1 + u) * ((1 + u) * D * ((1 + u) * (1 # 100))))
      with ((1 + u) * (1 + u) * (1 + u) * (D * (1 # 100)))
      using relation Qeq by ring.
      apply Qmult_le_compat_r; [vm_compute; discriminate | qlra]. }
    unfold decimal_value. fold D.
    set (t := 2 ^ (-51)) in *.
    assert (Ht : 0 <= t) by discriminate.
    destruct neg; cbn [xorb].
    + setoid_replace (- (1) * inject_Z (Z.pos mo) * 2 ^ eo)
      with (- V)
      using relation Qeq
        by (unfold V; ring).
      setoid_replace (- (1) * inject_Z m * 10 ^ e / 100)
        with (- (D * (1 # 100)))
        using relation Qeq
        by (unfold D; field).
      rewrite (Qabs_neg (- (D * (1 # 100)))) by qlra.
      apply Qabs_Qle_condition. split; qlra.
    + setoid_replace (1 * inject_Z (Z.pos mo) * 2 ^ eo)
      with V
      using relation Qeq
        by (unfold V; ring).
      setoid_replace (1 * inject_Z m * 10 ^ e / 100)
        with (D * (1 # 100))
        using relation Qeq
        by (unfold D; field).
      rewrite (Qabs_pos (D * (1 # 100))) by qlra.
      apply Qabs_Qle_condition. split; qlra.
Qed.

End Rounding.

(** ** Cells of a row *)

Section Cells.

Import pd.

Lemma cell_absent c ls vs : has_cell c ls vs = false -> cell c ls vs = NaN.
Proof.
  revert vs. induction ls as [|l ls IH]; intros [|v vs]; simpl; try done.
  case_bool_decide; simpl; [done | apply IH].
Qed.

Lemma cell_set_cell c x ls vs :
  cell c ls (set_cell c x ls vs) = if has_cell c ls vs then x else NaN.
Proof.
  revert vs. induction ls as [|l ls IH]; intros [|v vs]; simpl; try done.
  case_bool_decide; simpl; [done | apply IH].
Qed.

Lemma cell_set_cell_ne c d x ls vs :
  c <> d -> cell c ls (set_cell d x ls vs) = cell c ls vs.
Proof.
  intros Hne. revert vs.
  induction ls as [|l ls IH]; intros [|v vs]; simpl; try done.
  repeat case_bool_decide; subst; try done; apply IH.
Qed.

Lemma set_cell_set_cell c x y ls vs :
  set_cell c y ls (set_cell c x ls vs) = set_cell c y ls vs.
Proof.
  revert vs. induction ls as [|l ls IH]; intros [|v vs]; simpl; try done.
  rewrite IH. by case_bool_decide.
Qed.

Lemma del_cell_set_cell c x ls vs :
  del_cell c ls (set_cell c x ls vs) = del_cell c ls vs.
Proof.
  revert vs. induction ls as [|l ls IH]; intros [|v vs]; simpl; try done.
  rewrite IH. by case_bool_decide.
Qed.

Lemma cell_del_cell_ne c d ls vs :
  c <> d -> cell c (filter (fun l => l <> d) ls) (del_cell d ls vs) = cell c ls vs.
Proof.
  intros Hne. revert vs. induction ls as [|l ls IH]; intros vs.
  - by destruct vs.
  - rewrite filter_cons. destruct vs as [|v vs]; simpl.
    + case_decide; simpl; [done|]. by destruct (filter _ ls).
    + case_decide; case_bool_decide; subst; simpl; try done.
      * case_bool_decide; [done | apply IH].
      * case_bool_decide; [done | apply IH].
Qed.

Lemma count_pos_elem_of c ls : c ∈ ls <-> (0 < count c ls)%nat.
Proof.
  unfold count. induction ls as [|l ls IH].
  - split; [by intros ?%elem_of_nil | simpl; lia].
  - rewrite filter_cons, elem_of_cons. case_decide; subst; simpl.
    + split; [lia | by left].
    + rewrite <- IH. split; [intros [?|?]; [by subst | done] | by right].
Qed.

End Cells.

(** ** What each step does to a row *)

Section Steps.

Import pd.

Lemma getitem_Ok df c s :
  getitem df c = Ok s ->
  count c (columns df) = 1%nat /\
  s = map (fun r : row => cell c (columns df) r.2) (rows df).
Proof.
  unfold getitem. destruct (count c (columns df)) as [|[|n]]; try discriminate.
  intros H. by injection H as <-.
Qed.

Lemma setitem_existing df c s :
  count c (columns df) = 1%nat ->
  setitem df c s = mkDataFrame (columns df) (assign c (columns df) (rows df) s).
Proof. unfold setitem. by intros ->. Qed.

Lemma assign_spec c ls (g : value -> result value) rs s' :
  mapR g (map (fun r : row => cell c ls r.2) rs) = Ok s' ->
  Forall2 (fun r r' : row =>
             r'.1 = r.1 /\
             exists y, g (cell c ls r.2) = Ok y /\ r'.2 = set_cell c y ls r.2)
          rs (assign c ls rs s').
Proof.
  revert s'. induction rs as [|r rs IH]; intros s' H; simpl in *.
  - constructor.
  - inv_bind. simpl. constructor; [|by apply IH].
    simpl. split; [done|]. eexists. by split.
Qed.

(** Getting a column, applying a rule to each cell and storing it back. *)
Lemma update_column df c g s s' :
  getitem df c = Ok s -> mapR g s = Ok s' ->
  count c (columns df) = 1%nat /\ updated c g df (setitem df c s').
Proof.
  intros (Hc & ->)%getitem_Ok Hm. split; [done|].
  rewrite (setitem_existing _ _ _ Hc). split; [done|]. simpl.
  by apply assign_spec.
Qed.

Lemma mapR_percent s x :
  astype_float (str_replace "%" "" s) = Ok x ->
  mapR percent_cell s = Ok (map VFloat (mul x Float.hundredth)).
Proof.
  unfold astype_float, str_replace, mul. revert x.
  induction s as [|v s IH]; intros x H; simpl in H; inv_bind; [done|].
  cbn [mapR]. erewrite IH by eassumption.
  unfold percent_cell, strip_percent.
  match goal with Hf : float _ = Ok _ |- _ => rewrite Hf end. done.
Qed.

Lemma percent_column_spec c df df' :
  percent_column c df = Ok df' ->
  count (VStr c) (columns df) = 1%nat /\ updated (VStr c) percent_cell df df'.
Proof.
  unfold percent_column. intros H. inv_bind.
  eapply update_column; [eassumption|]. by apply mapR_percent.
Qed.

Lemma mapR_pure {A B} (f : A -> B) (l : list A) :
  mapR (fun v => Ok (f v)) l = Ok (map f l).
Proof. induction l as [|v l IH]; simpl; [done|]. by rewrite IH. Qed.

Lemma mapR_float s x :
  astype_float s = Ok x ->
  mapR (fun v => f ← float v; Ok (VFloat f)) s = Ok (map VFloat x).
Proof.
  unfold astype_float. revert x.
  induction s as [|v s IH]; intros x H; simpl in H; inv_bind; [done|].
  cbn [mapR]. erewrite IH by eassumption.
  match goal with Hf : float _ = Ok _ |- _ => rewrite Hf end. done.
Qed.

Lemma percent_cell_NaN : percent_cell NaN = Ok NaN.
Proof. reflexivity. Qed.

Lemma float_cell_VFloat f : float_cell (VFloat f) = Ok (VFloat f).
Proof. reflexivity. Qed.

Lemma percent_cell_is_float v y : percent_cell v = Ok y -> exists f, y = VFloat f.
Proof. unfold percent_cell. intros H. inv_bind. by eexists. Qed.

Lemma float_cell_is_float v y : float_cell v = Ok y -> exists f, y = VFloat f.
Proof. unfold float_cell. intros H. inv_bind. by eexists. Qed.

(** Reading back the cell a rule has written.  A row without a cell
    under [c] reads as [NaN] before and after, and the rules map [NaN]
    to [NaN]. *)
Lemma set_cell_read (g : value -> result value) c y ls vs :
  g NaN = Ok NaN -> g (cell c ls vs) = Ok y ->
  cell c ls (set_cell c y ls vs) = y.
Proof.
  intros HN Hg. rewrite cell_set_cell.
  destruct (has_cell c ls vs) eqn:Hhas; [done|].
  rewrite (cell_absent _ _ _ Hhas), HN in Hg. by injection Hg.
Qed.

Lemma float_column_spec c df df' :
  float_column c df = Ok df' ->
  count c (columns df) = 1%nat /\ updated c float_cell df df'.
Proof.
  unfold float_column. intros H. inv_bind.
  match goal with H1 : getitem df c = Ok ?s |- _ =>
    destruct (update_column df c
                (fun v => Ok (if bool_decide (v = VStr "-") then NaN else v))
                s (replace (VStr "-") NaN s) H1) as (Hc & Hcols & Hrows);
      [apply (mapR_pure (fun v => if bool_decide (v = VStr "-") then NaN else v))|]
  end.
  match goal with
  | H1 : getitem (setitem _ _ _) c = Ok ?s, H2 : astype_float ?s = Ok ?x |- _ =>
    destruct (update_column _ c _ s (map VFloat x) H1 (mapR_float _ _ H2))
      as (_ & Hcols' & Hrows')
  end.
  split; [done|]. split; [congruence|].
  rewrite Hcols in Hrows'.
  eapply Forall2_trans; [|exact Hrows|exact Hrows'].
  intros r r1 r' (Hi & y & Hy & Hr1) (Hi' & y' & Hy' & Hr').
  injection Hy as <-. split; [congruence|].
  exists y'. rewrite Hr', Hr1, set_cell_set_cell. split; [|done].
  rewrite Hr1 in Hy'.
  rewrite (set_cell_read
             (fun v => Ok (if bool_decide (v = VStr "-") then NaN else v)))
    in Hy' by done.
  exact Hy'.
Qed.

End Steps.

(** ** The loop over the columns and the numeric conversion *)

Section Numbers.

Import pd.

Lemma forR_float_column ls df df' :
  forR float_column ls df = Ok df' ->
  columns df' = columns df /\
  Forall2 (floated ls (columns df)) (rows df) (rows df').
Proof.
  revert df. induction ls as [|l ls IH]; intros df H; simpl in H.
  - injection H as <-. split; [done|].
    apply Forall_Forall2_diag, Forall_forall. intros r _. split; [done|].
    intros c. split; [by intros ?%elem_of_nil | done].
  - inv_bind.
    match goal with H1 : float_column l df = Ok ?d |- _ =>
      apply float_column_spec in H1 as (_ & Hcols & Hrows);
      destruct (IH d H) as (Hcols' & Hrows')
    end.
    split; [congruence|]. rewrite Hcols in Hrows'.
    eapply Forall2_trans; [|exact Hrows|exact Hrows'].
    intros r r1 r' (Hi & y & Hy & Hr1) (Hi' & Hc).
    split; [congruence|]. intros c.
    assert (Hl : cell l (columns df) r1.2 = y).
    { rewrite Hr1. by apply (set_cell_read float_cell). }
    destruct (decide (c = l)) as [->|Hne].
    + split; [intros _ | intros []; by left].
      rewrite Hy. f_equal.
      destruct (float_cell_is_float _ _ Hy) as (f & ->).
      destruct (decide (l ∈ ls)) as [Hin|Hnin].
      * apply Hc in Hin. rewrite Hl, float_cell_VFloat in Hin. by injection Hin.
      * apply Hc in Hnin. congruence.
    + assert (Hsame : cell c (columns df) r1.2 = cell c (columns df) r.2).
      { rewrite Hr1. by apply cell_set_cell_ne. }
      rewrite <- Hsame. split.
      * intros [?|Hin]%elem_of_cons; [done | by apply Hc].
      * intros Hnin. apply Hc. intros Hin. apply Hnin. by right.
Qed.

(** One percentage column: its cells follow [percent_cell], the others
    are as they were. *)
Lemma updated_cells c g df df' :
  g NaN = Ok NaN -> updated c g df df' ->
  Forall2 (fun r r' : row =>
             r'.1 = r.1 /\
             g (cell c (columns df) r.2) = Ok (cell c (columns df) r'.2) /\
             forall d, d <> c ->
               cell d (columns df) r'.2 = cell d (columns df) r.2)
          (rows df) (rows df').
Proof.
  intros HN [_ Hrows]. eapply Forall2_impl; [exact Hrows|].
  intros r r' (Hi & y & Hy & Hr). split; [done|]. rewrite Hr. split.
  - by rewrite (set_cell_read g).
  - intros d Hne. by apply cell_set_cell_ne.
Qed.

Lemma to_numbers_spec df df' :
  to_numbers df = Ok df' ->
  columns df' = columns df /\
  Forall2 (numbered (columns df)) (rows df) (rows df').
Proof.
  unfold to_numbers. intros H.
  apply bind_Ok in H as (d1 & Hp1 & H).
  apply bind_Ok in H as (d2 & Hp2 & H).
  apply bind_Ok in H as (d3 & Hp3 & H).
  apply percent_column_spec in Hp1 as (_ & U1).
  apply percent_column_spec in Hp2 as (_ & U2).
  apply percent_column_spec in Hp3 as (_ & U3).
  pose proof (updated_cells _ _ _ _ percent_cell_NaN U1) as F1.
  pose proof (updated_cells _ _ _ _ percent_cell_NaN U2) as F2.
  pose proof (updated_cells _ _ _ _ percent_cell_NaN U3) as F3.
  destruct U1 as [C1 _], U2 as [C2 _], U3 as [C3 _].
  apply forR_float_column in H as (C4 & F4).
  rewrite C3, C2, C1 in *. split; [done|].
  pose proof (Forall2_compose _ _ _ _ _ F1 F2) as F12.
  pose proof (Forall2_compose _ _ _ _ _ F12 F3) as F123.
  pose proof (Forall2_compose _ _ _ _ _ F123 F4) as F.
  eapply Forall2_impl; [exact F|]. clear. cbv beta.
  intros r r' (r3 & (r2 & (r1 & H1 & H2) & H3) & H4).
  destruct H1 as (I1 & P1 & O1), H2 as (I2 & P2 & O2),
           H3 as (I3 & P3 & O3), H4 as (I4 & L).
  split; [congruence|]. intros c Hc. unfold cell_rule.
  destruct (L c) as [Lin _]. specialize (Lin Hc).
  unfold percent_columns. case_bool_decide as Hpc.
  - assert (Hfix : forall v y, percent_cell v = Ok y -> float_cell y = Ok y).
    { intros v y (f & ->)%percent_cell_is_float. apply float_cell_VFloat. }
    rewrite !elem_of_cons, elem_of_nil in Hpc.
    destruct Hpc as [->|[->|[->|[]]]].
    + rewrite P1. f_equal.
      rewrite O3, O2, (Hfix _ _ P1) in Lin by done. by injection Lin.
    + rewrite <- O1 by done. rewrite P2. f_equal.
      rewrite O3, (Hfix _ _ P2) in Lin by done. by injection Lin.
    + rewrite <- O1, <- O2 by done. rewrite P3. f_equal.
      rewrite (Hfix _ _ P3) in Lin. by injection Lin.
  - rewrite !elem_of_cons, elem_of_nil in Hpc.
    rewrite <- O1, <- O2, <- O3; [exact Lin | | |]; intros ->; tauto.
Qed.

End Numbers.

(** ** The date index *)

Global Instance datetime_le_total : Total datetime_le.
Proof. intros [|x] [|y]; simpl; auto. lia. Qed.

Global Instance datetime_le_trans : Transitive datetime_le.
Proof. intros [|x] [|y] [|z]; simpl; auto; try done. lia. Qed.

Global Instance index_le_total : Total index_le.
Proof. intros r1 r2. apply datetime_le_total. Qed.

Lemma insert_row_Permutation r rs : pd.insert_row r rs ≡ₚ r :: rs.
Proof.
  induction rs as [|x rs IH]; simpl; [done|].
  case_decide; [done|]. rewrite IH. apply Permutation_swap.
Qed.

Lemma sort_rows_Permutation rs : pd.sort_rows rs ≡ₚ rs.
Proof.
  induction rs as [|r rs IH]; simpl; [done|].
  by rewrite insert_row_Permutation, IH.
Qed.

Lemma Sorted_insert_row r rs :
  Sorted index_le rs -> Sorted index_le (pd.insert_row r rs).
Proof.
  induction 1 as [|x rs Hs IH Hhd]; simpl; [by repeat constructor|].
  case_decide as Hle.
  - constructor; [by constructor | by constructor].
  - assert (Hxr : index_le x r) by (by destruct (total index_le r x)).
    constructor; [exact IH|].
    destruct Hhd as [|y rs' Hxy]; simpl; [by constructor|].
    case_decide; by constructor.
Qed.

Lemma Sorted_sort_rows rs : Sorted index_le (pd.sort_rows rs).
Proof.
  induction rs as [|r rs IH]; simpl; [constructor|].
  by apply Sorted_insert_row.
Qed.

Section Pipeline.

Context {content : Type}.
Variable to_datetime_scalar : value -> result datetime.
Variable csv_text : DataFrame -> content.

Import pd.

Lemma mapR_to_datetime s ts :
  mapR to_datetime_scalar s = Ok ts ->
  mapR (fun v => t ← to_datetime_scalar v; Ok (VTime t)) s = Ok (map VTime ts).
Proof.
  revert ts. induction s as [|v s IH]; intros ts H; simpl in H; inv_bind; [done|].
  cbn [mapR]. erewrite IH by eassumption.
  match goal with Hf : to_datetime_scalar _ = Ok _ |- _ => rewrite Hf end. done.
Qed.

Lemma index_by_date_spec df df' :
  index_by_date to_datetime_scalar df = Ok df' ->
  count Date (columns df) = 1%nat /\
  columns df' = filter (fun l => l <> Date) (columns df) /\
  exists rs, Forall2 (dated to_datetime_scalar (columns df)) (rows df) rs /\
             rows df' = pd.sort_rows rs.
Proof.
  unfold index_by_date, to_datetime. fold Date. intros H.
  apply bind_Ok in H as (s & Hs & H).
  apply bind_Ok in H as (d & Hd & H).
  apply bind_Ok in Hd as (ts & Hts & Hd). injection Hd as <-.
  apply bind_Ok in H as (df2 & Hset & Hsort).
  destruct (update_column _ _ _ _ _ Hs (mapR_to_datetime _ _ Hts))
    as (Hc & Hcols & Hrows).
  unfold set_index in Hset. rewrite Hcols, Hc in Hset. injection Hset as <-.
  unfold sort_index in Hsort. simpl in Hsort.
  destruct (forallb is_time _) eqn:Htime; [|discriminate].
  injection Hsort as <-. simpl. split; [done|]. split; [done|].
  eexists. split; [|reflexivity].
  apply Is_true_true, forallb_True in Htime.
  rewrite Forall_fmap, Forall_fmap in Htime.
  apply Forall2_fmap_r.
  eapply Forall2_impl; [exact (Forall2_and_r _ _ _ _ Hrows Htime)|].
  cbv beta. intros r r' ((Hi & y & Hy & Hr) & Ht). simpl in Ht.
  apply bind_Ok in Hy as (t & Hparse & Hy). injection Hy as <-.
  exists t. simpl. rewrite Hr, del_cell_set_cell. split; [done|].
  split; [|done]. rewrite Hr in Ht. rewrite cell_set_cell in Ht |- *.
  by destruct (has_cell _ _ _).
Qed.

Lemma Forall2_same_index (R : row -> row -> Prop) (l k : list row) :
  Forall2 R l k -> (forall r r', R r r' -> r'.1 = r.1) -> k.*1 = l.*1.
Proof.
  intros HF HR. induction HF as [|r r' l k Hr _ IH]; [done|].
  rewrite !fmap_cons. by rewrite (HR _ _ Hr), IH.
Qed.

Lemma labels_are_times (l : list value) :
  Forall (fun v => VTime (time_of v) = v) l -> map VTime (time_of <$> l) = l.
Proof.
  induction 1 as [|v l Hv _ IH]; [done|].
  cbn [fmap list_fmap map]. by rewrite Hv, IH.
Qed.

Lemma dated_dates cols (rs1 rs : list row) :
  Forall2 (dated to_datetime_scalar cols) rs1 rs ->
  mapR to_datetime_scalar (map (fun r : row => cell Date cols r.2) rs1)
    = Ok (time_of <$> rs.*1) /\
  rs.*1 = map VTime (time_of <$> rs.*1).
Proof.
  induction 1 as [|r r' l k (t & Ht & Hi & _) _ [IH1 IH2]]; [done|].
  cbn [fmap list_fmap map mapR]. rewrite Ht, IH1. cbn [mbind result_bind].
  rewrite Hi. cbn [time_of]. split; [done|]. f_equal. exact IH2.
Qed.

(** The rows of the normalised table are the data rows, each converted
    by [normal_row], in some order. *)
Lemma normalize_rows raw df1 out :
  drop_sentinels raw = Ok df1 ->
  normalize to_datetime_scalar raw = Ok out ->
  columns out = filter (fun l => l <> Date) (columns df1) /\
  exists l, Forall2 (normal_row to_datetime_scalar (columns df1)) (rows df1) l /\ l ≡ₚ rows out.
Proof.
  unfold normalize. intros Hdrop H. rewrite Hdrop in H. simpl in H.
  apply bind_Ok in H as (df2 & Hidx & Hnum).
  apply index_by_date_spec in Hidx as (_ & Hcols & rs & Hdated & Hsort).
  apply to_numbers_spec in Hnum as (Hcols' & Hnum).
  split; [congruence|].
  rewrite Hsort in Hnum.
  destruct (Forall2_Permutation_l _ _ rs _ Hnum (sort_rows_Permutation _))
    as (l & Hl & Hperm).
  exists l. split; [|done].
  eapply Forall2_trans; [|exact Hdated|exact Hl].
  intros r r2 r' (t & Ht & Hi & Hcells) (Hi' & Hrule).
  exists t. split; [done|]. split; [congruence|].
  intros c Hc Hne. rewrite Hcols in Hrule.
  rewrite <- (cell_del_cell_ne c Date (columns df1) r.2 Hne), <- Hcells.
  apply Hrule. apply list_elem_of_filter. by split.
Qed.

(** The index of the normalised table: the dates of the data rows, in
    ascending order. *)
Lemma normalize_index raw df1 out :
  drop_sentinels raw = Ok df1 ->
  normalize to_datetime_scalar raw = Ok out ->
  exists ts ts', dates to_datetime_scalar df1 = Ok ts /\
                 (rows out).*1 = map VTime ts' /\
                 ts' ≡ₚ ts /\ Sorted datetime_le ts'.
Proof.
  unfold normalize. intros Hdrop H. rewrite Hdrop in H. simpl in H.
  apply bind_Ok in H as (df2 & Hidx & Hnum).
  apply index_by_date_spec in Hidx as (_ & _ & rs & Hdated & Hsort).
  apply to_numbers_spec in Hnum as (_ & Hnum).
  apply Forall2_same_index in Hnum; [|by intros ? ? []].
  destruct (dated_dates _ _ _ Hdated) as (Hdates & Hlabels).
  exists (time_of <$> rs.*1), (time_of <$> (rows df2).*1).
  assert (Hperm : (rows df2).*1 ≡ₚ rs.*1).
  { rewrite Hsort. apply fmap_Permutation, sort_rows_Permutation. }
  split; [done|]. split; [|split].
  - rewrite Hnum. symmetry. apply labels_are_times.
    rewrite Hperm, Hlabels. apply Forall_forall.
    intros v Hv. change (map VTime ?l) with (VTime <$> l) in Hv.
    by apply list_elem_of_fmap in Hv as (t & -> & _).
  - by apply fmap_Permutation.
  - rewrite <- list_fmap_compose, Hsort.
    apply Sorted_fmap with (R1 := index_le); [by intros ? ?|].
    apply Sorted_sort_rows.
Qed.

(** ** The sentinel rows *)

Lemma filter_all {A} (P : A -> Prop) `{forall x, Decision (P x)} (l : list A) :
  Forall P l -> filter P l = l.
Proof.
  induction 1 as [|x l Hx _ IH]; [done|].
  by rewrite filter_cons_True, IH.
Qed.

Lemma labels_from (rs : list row) (k : nat) :
  rs.*1 = (fun i => VInt (Z.of_nat i)) <$> seq k (length rs) ->
  Forall (fun r : row => exists i, r.1 = VInt (Z.of_nat i) /\
                                   (k <= i < k + length rs)%nat) rs.
Proof.
  revert k. induction rs as [|r rs IH]; intros k H; [constructor|].
  cbn [length seq fmap list_fmap] in H. injection H as Hr Hrs.
  constructor.
  - exists k. split; [done|]. simpl. lia.
  - eapply Forall_impl; [by apply (IH (S k))|].
    intros r' (i & Hi & Hb). exists i. split; [done|]. simpl. lia.
Qed.

Lemma drop_present df label :
  label ∈ (rows df).*1 ->
  drop df label =
  Ok (mkDataFrame (columns df) (filter (fun r : row => r.1 <> label) (rows df))).
Proof. intros H. unfold drop. by rewrite bool_decide_true. Qed.

Lemma drop_sentinels_default raw first mid last :
  rows raw = first :: mid ++ [last] ->
  default_index raw -> rectangular raw ->
  drop_sentinels raw = Ok (mkDataFrame first.2 mid).
Proof.
  intros Hrows Hidx Hrect. unfold default_index in Hidx.
  unfold rectangular in Hrect. rewrite Hrows in Hidx, Hrect.
  apply Forall_cons in Hrect as [Hwidth _].
  cbn [length seq fmap list_fmap] in Hidx. injection Hidx as Hfirst Hrest.
  rewrite length_app, seq_app, !fmap_app in Hrest.
  apply app_inj_1 in Hrest as [Hmid Hlast]; [|by rewrite !length_fmap, length_seq].
  apply labels_from in Hmid. simpl in Hlast. injection Hlast as Hj.
  unfold drop_sentinels, iloc0, set_columns. rewrite Hrows.
  cbn [mbind result_bind]. rewrite bool_decide_true by done.
  cbn [mbind result_bind rows columns].
  rewrite drop_present by (cbn [rows]; rewrite fmap_cons, Hfirst; by left).
  cbn [mbind result_bind rows columns].
  rewrite filter_cons_False by (rewrite Hfirst; by intros []).
  rewrite filter_all.
  2:{ apply Forall_app. split.
      - eapply Forall_impl; [exact Hmid|].
        intros r (i & -> & Hb) [=]. lia.
      - apply Forall_singleton. rewrite Hj. by intros [=]. }
  unfold len. cbn [rows]. rewrite length_app. simpl length.
  replace (length mid + 1)%nat with (1 + length mid)%nat by lia.
  rewrite drop_present.
  2:{ cbn [rows]. rewrite fmap_app. apply elem_of_app. right.
      simpl. rewrite Hj. by left. }
  cbn [rows columns]. rewrite filter_app, filter_all.
  2:{ eapply Forall_impl; [exact Hmid|].
      intros r (i & -> & Hb) [=]. lia. }
  rewrite filter_cons_False, filter_nil, app_nil_r; [done|].
  rewrite Hj. by intros [].
Qed.

(** ** Rows and cells of the result *)

Lemma to_numbers_percent_columns df df' c :
  to_numbers df = Ok df' -> c ∈ percent_columns -> c ∈ columns df.
Proof.
  unfold to_numbers. intros H Hc.
  apply bind_Ok in H as (d1 & Hp1 & H).
  apply bind_Ok in H as (d2 & Hp2 & H).
  apply bind_Ok in H as (d3 & Hp3 & _).
  apply percent_column_spec in Hp1 as (N1 & [C1 _]).
  apply percent_column_spec in Hp2 as (N2 & [C2 _]).
  apply percent_column_spec in Hp3 as (N3 & _).
  rewrite C2, C1 in N3. rewrite C1 in N2.
  unfold percent_columns in Hc. rewrite !elem_of_cons, elem_of_nil in Hc.
  apply count_pos_elem_of. destruct Hc as [->|[->|[->|[]]]]; lia.
Qed.

Lemma normalize_percent_columns raw df1 out c :
  drop_sentinels raw = Ok df1 ->
  normalize to_datetime_scalar raw = Ok out ->
  c ∈ percent_columns -> c ∈ columns df1.
Proof.
  unfold normalize. intros Hdrop H Hc. rewrite Hdrop in H. simpl in H.
  apply bind_Ok in H as (df2 & Hidx & Hnum).
  apply index_by_date_spec in Hidx as (_ & Hcols & _).
  eapply to_numbers_percent_columns in Hnum; [|exact Hc].
  rewrite Hcols in Hnum. by apply list_elem_of_filter in Hnum as [_ ?].
Qed.

(** Every data row has its converted row in the result. *)
Lemma normalize_row_image raw df1 out r :
  drop_sentinels raw = Ok df1 ->
  normalize to_datetime_scalar raw = Ok out ->
  r ∈ rows df1 ->
  exists r', r' ∈ rows out /\ normal_row to_datetime_scalar (columns df1) r r'.
Proof.
  intros Hdrop Hnorm Hr.
  destruct (normalize_rows _ _ _ Hdrop Hnorm) as (_ & l & HF & Hperm).
  apply list_elem_of_lookup in Hr as (i & Hi).
  destruct (Forall2_lookup_l _ _ _ _ _ HF Hi) as (r' & Hi' & Hrr').
  exists r'. split; [|done]. rewrite <- Hperm.
  by eapply list_elem_of_lookup_2.
Qed.

(** Every row of the result is the converted row of a data row. *)
Lemma normalize_row_origin raw df1 out r' :
  drop_sentinels raw = Ok df1 ->
  normalize to_datetime_scalar raw = Ok out ->
  r' ∈ rows out ->
  exists r, r ∈ rows df1 /\ normal_row to_datetime_scalar (columns df1) r r'.
Proof.
  intros Hdrop Hnorm Hr.
  destruct (normalize_rows _ _ _ Hdrop Hnorm) as (_ & l & HF & Hperm).
  rewrite <- Hperm in Hr.
  apply list_elem_of_lookup in Hr as (i & Hi).
  destruct (Forall2_lookup_r _ _ _ _ _ HF Hi) as (r & Hi' & Hrr').
  exists r. split; [|done]. by eapply list_elem_of_lookup_2.
Qed.


Lemma replace_char_trailing_percent X :
  "%"%char ∉ list_ascii_of_string X ->
  replace_char "%" "" (X +:+ "%") = X.
Proof.
  induction X as [|ch X IH]; intros Hno; [done|].
  cbn [list_ascii_of_string] in Hno. apply not_elem_of_cons in Hno as [Hne Hno].
  change (String ch X +:+ "%") with (String ch (X +:+ "%")).
  cbn [replace_char].
  destruct (Ascii.eqb_spec ch "%") as [->|_]; [done|]. by rewrite IH.
Qed.

(** The cell of a percentage column in the result. *)
Lemma percent_cell_of_result raw df1 out r c s :
  drop_sentinels raw = Ok df1 ->
  normalize to_datetime_scalar raw = Ok out ->
  r ∈ rows df1 -> c ∈ percent_columns ->
  cell c (columns df1) r.2 = VStr s ->
  exists f t r',
    PyFloat.parse (replace_char "%" "" s) = Some f /\
    to_datetime_scalar (cell Date (columns df1) r.2) = Ok t /\
    r' ∈ rows out /\ r'.1 = VTime t /\
    cell c (columns out) r'.2 = VFloat (Float.mul f Float.hundredth).
Proof.
  intros Hdrop Hnorm Hr Hc Hcell.
  assert (c <> Date) as Hne.
  { intros ->. revert Hc. unfold percent_columns, Date.
    rewrite !elem_of_cons, elem_of_nil. by intros [|[|[|]]]. }
  destruct (normalize_row_image _ _ _ _ Hdrop Hnorm Hr)
    as (r' & Hr' & t & Ht & Hi & Hcells).
  destruct (normalize_rows _ _ _ Hdrop Hnorm) as (Hcols & _).
  specialize (Hcells c (normalize_percent_columns _ _ _ _ Hdrop Hnorm Hc) Hne).
  rewrite <- Hcols, Hcell in Hcells. unfold cell_rule in Hcells.
  rewrite bool_decide_true in Hcells by done.
  unfold percent_cell, strip_percent, float in Hcells.
  destruct (PyFloat.parse (replace_char "%" "" s)) as [f|] eqn:Hf; [|done].
  exists f, t, r'. repeat split; try done.
  simpl in Hcells. by injection Hcells.
Qed.

(** ** The function as a whole *)

Lemma to_csv_Ok out folder name fs fs' :
  to_csv csv_text out folder name fs = Ok fs' <->
  folder ∈ dirs fs /\
  ((folder +:+ "/" +:+ name) ∉ dirs fs) /\
  faults fs !! (folder +:+ "/" +:+ name) = None /\
  fs' = store (folder +:+ "/" +:+ name) (csv_text out) fs.
Proof.
  unfold to_csv, write_file, can_open.
  case_bool_decide; [case_bool_decide|]; simpl; try (split; [done|tauto]).
  destruct (faults fs !! _) as [f|]; split.
  - discriminate.
  - by intros (_ & _ & ? & _).
  - intros Heq. by injection Heq as <-.
  - by intros (_ & _ & _ & ->).
Qed.

Lemma interrupted_write_dirs folder name (fs : filesystem content) :
  dirs (interrupted_write folder name fs) = dirs fs.
Proof.
  unfold interrupted_write. destruct (can_open _ _ _); [|done].
  by destruct (faults fs !! _) as [[|rest]|].
Qed.

Lemma interrupted_write_files folder name (fs : filesystem content) p :
  p <> folder +:+ "/" +:+ name ->
  files (interrupted_write folder name fs) !! p = files fs !! p.
Proof.
  intros Hp. unfold interrupted_write. destruct (can_open _ _ _); [|done].
  destruct (faults fs !! _) as [[|rest]|]; try done.
  simpl. by rewrite lookup_insert_ne.
Qed.

Lemma interrupted_write_missing folder name (fs : filesystem content) :
  folder ∉ dirs fs -> interrupted_write folder name fs = fs.
Proof.
  intros Hd. unfold interrupted_write, can_open.
  by rewrite bool_decide_false.
Qed.

Lemma fetch_and_normalize_Ok read_html out :
  fetch_and_normalize to_datetime_scalar read_html = Ok out <->
  exists raw rest,
    read_html url = Ok (raw :: rest) /\
    normalize to_datetime_scalar raw = Ok out.
Proof.
  unfold fetch_and_normalize. split.
  - intros H. apply bind_Ok in H as (tables & Hfetch & H).
    apply bind_Ok in H as (raw & Hfirst & H).
    destruct tables as [|t rest]; [discriminate|]. injection Hfirst as ->.
    by exists raw, rest.
  - intros (raw & rest & -> & Hnorm). simpl. exact Hnorm.
Qed.

Lemma try_block_Ok read_html folder fs fs' :
  try_block to_datetime_scalar csv_text read_html folder fs = Ok fs' <->
  exists raw rest out,
    read_html url = Ok (raw :: rest) /\
    normalize to_datetime_scalar raw = Ok out /\
    to_csv csv_text out folder "vix_contago.csv" fs = Ok fs'.
Proof.
  unfold try_block. split.
  - intros H. apply bind_Ok in H as (tables & Hfetch & H).
    apply bind_Ok in H as (raw & Hfirst & H).
    apply bind_Ok in H as (out & Hnorm & H).
    destruct tables as [|t rest]; [discriminate|]. injection Hfirst as ->.
    by exists raw, rest, out.
  - intros (raw & rest & out & -> & Hnorm & Hcsv). simpl.
    rewrite Hnorm. simpl. exact Hcsv.
Qed.

(** The function in terms of the [try] block: the block ran to its end,
    or an exception was caught, before the write or during it. *)
Lemma get_and_save_block read_html folder fs :
  get_and_save_vix_contago to_datetime_scalar csv_text read_html folder fs =
  match try_block to_datetime_scalar csv_text read_html folder fs with
  | Ok fs' => (true, fs')
  | Raise _ =>
      (false,
       if is_ok (fetch_and_normalize to_datetime_scalar read_html)
       then interrupted_write folder "vix_contago.csv" fs else fs)
  end.
Proof.
  unfold get_and_save_vix_contago, try_block, fetch_and_normalize.
  destruct (read_html url) as [[|raw rest]|e]; simpl; try done.
  destruct (normalize _ raw) as [out|e]; simpl; [|done].
  by destruct (to_csv _ _ _ _ _).
Qed.


Lemma get_and_save_fails read_html folder fs :
  (forall raw rest out, read_html url = Ok (raw :: rest) ->
                        normalize to_datetime_scalar raw <> Ok out) ->
  get_and_save_vix_contago to_datetime_scalar csv_text read_html folder fs = (false, fs).
Proof.
  intros Hfail. unfold get_and_save_vix_contago.
  destruct (fetch_and_normalize _ _) as [out|e] eqn:Hrun; [|done].
  apply fetch_and_normalize_Ok in Hrun as (raw & rest & Hfetch & Hnorm).
  destruct (Hfail _ _ _ Hfetch Hnorm).
Qed.

Lemma normalize_bad_date raw df1 r e :
  drop_sentinels raw = Ok df1 -> r ∈ rows df1 ->
  to_datetime_scalar (cell Date (columns df1) r.2) = Raise e ->
  forall out, normalize to_datetime_scalar raw <> Ok out.
Proof.
  intros Hdrop Hr Hbad out Hnorm.
  destruct (normalize_row_image _ _ _ _ Hdrop Hnorm Hr)
    as (r' & _ & t & Ht & _).
  congruence.
Qed.

Lemma Sorted_le_NoDup_lt (ts : list datetime) :
  Sorted datetime_le ts -> NoDup ts -> Sorted datetime_lt ts.
Proof.
  intros Hs%Sorted_StronglySorted Hnd; [|apply _].
  apply StronglySorted_Sorted.
  induction Hs as [|t ts _ IH Hall]; [constructor|].
  apply NoDup_cons in Hnd as [Hnin Hnd].
  constructor; [by apply IH|].
  apply Forall_forall. intros t' Hin. split.
  - by eapply Forall_forall in Hall.
  - by intros ->.
Qed.

(** ** Tables on which the normalisation succeeds *)

Lemma is_ok_true {A} (m : result A) : is_ok m = true -> exists a, m = Ok a.
Proof. destruct m as [a|e]; [by exists a | discriminate]. Qed.

Lemma mapR_is_ok {A B} (f : A -> result B) (l : list A) :
  Forall (fun x => is_ok (f x) = true) l -> exists l', mapR f l = Ok l'.
Proof.
  induction 1 as [|x l Hx _ (l' & IH)]; [by exists []|].
  apply is_ok_true in Hx as (y & Hy). exists (y :: l').
  cbn [mapR]. by rewrite Hy, IH.
Qed.

Lemma Forall2_Forall_image {A B} (R : A -> B -> Prop) (P : A -> Prop)
    (Q : B -> Prop) (l : list A) (k : list B) :
  Forall2 R l k -> Forall P l -> (forall x y, P x -> R x y -> Q y) -> Forall Q k.
Proof.
  intros HF HP HQ. induction HF as [|x y l k Hxy _ IH]; [constructor|].
  apply Forall_cons in HP as [Hx HP]. constructor; [by eapply HQ | by apply IH].
Qed.

Lemma count_NoDup c ls : NoDup ls -> c ∈ ls -> count c ls = 1%nat.
Proof.
  unfold count. induction 1 as [|l ls Hnin _ IH]; [by intros ?%elem_of_nil|].
  rewrite filter_cons. intros [<-|Hin]%elem_of_cons.
  - rewrite decide_True by done. simpl. f_equal.
    destruct (filter _ ls) as [|x k] eqn:Hf; [done|].
    assert (Hx : x ∈ filter (fun l => l = c) ls) by (rewrite Hf; by left).
    apply list_elem_of_filter in Hx as [-> ?]. done.
  - rewrite decide_False by (by intros ->). by apply IH.
Qed.

Lemma has_cell_elem_of c ls vs :
  c ∈ ls -> length vs = length ls -> has_cell c ls vs = true.
Proof.
  revert vs. induction ls as [|l ls IH]; intros vs Hin Hlen.
  - by apply elem_of_nil in Hin.
  - destruct vs as [|v vs]; [discriminate|]. simpl.
    apply elem_of_cons in Hin as [->|Hin].
    + by rewrite bool_decide_true.
    + rewrite IH; [by rewrite orb_true_r | done | by injection Hlen].
Qed.

Lemma cell_not_elem_of c ls vs : c ∉ ls -> cell c ls vs = NaN.
Proof.
  revert vs. induction ls as [|l ls IH]; intros [|v vs] Hnin; simpl; try done.
  apply not_elem_of_cons in Hnin as [Hne Hnin].
  rewrite bool_decide_false by done. by apply IH.
Qed.

Lemma index_by_date_succeeds df :
  count Date (columns df) = 1%nat ->
  Forall (fun r : row =>
            has_cell Date (columns df) r.2 = true /\
            is_ok (to_datetime_scalar (cell Date (columns df) r.2)) = true)
         (rows df) ->
  exists df', index_by_date to_datetime_scalar df = Ok df'.
Proof.
  intros Hc Hrows. unfold index_by_date, to_datetime. fold Date.
  unfold getitem. rewrite Hc. cbn [mbind result_bind].
  destruct (mapR_is_ok to_datetime_scalar
              (map (fun r : row => cell Date (columns df) r.2) (rows df)))
    as (ts & Hts).
  { change (map ?f ?l) with (f <$> l). apply Forall_fmap.
    eapply Forall_impl; [exact Hrows|]. by intros r [_ ?]. }
  rewrite Hts. cbn [mbind result_bind].
  rewrite (setitem_existing _ _ _ Hc). unfold set_index.
  cbn [columns rows]. rewrite Hc. cbn [mbind result_bind].
  unfold sort_index. cbn [columns rows].
  pose proof (assign_spec Date (columns df) _ (rows df) _
                (mapR_to_datetime _ _ Hts)) as HF.
  match goal with |- context [forallb is_time ?l] =>
    assert (Htime : forallb is_time l = true)
  end.
  { apply Is_true_true, forallb_True.
    rewrite Forall_fmap. change (map ?f ?l) with (f <$> l). rewrite Forall_fmap.
    eapply Forall2_Forall_image; [exact HF|exact Hrows|].
    intros r r' [Hhas _] (_ & y & Hy & Hr'). simpl.
    apply bind_Ok in Hy as (t & _ & Hy). injection Hy as <-.
    by rewrite Hr', cell_set_cell, Hhas. }
  rewrite Htime. by eexists.
Qed.

Lemma percent_cell_ok_float v :
  is_ok (percent_cell v) = true -> is_ok (float (strip_percent v)) = true.
Proof. unfold percent_cell. by destruct (float (strip_percent v)). Qed.

Lemma percent_column_succeeds c df :
  count (VStr c) (columns df) = 1%nat ->
  Forall (fun r : row =>
            is_ok (percent_cell (cell (VStr c) (columns df) r.2)) = true)
         (rows df) ->
  exists df', percent_column c df = Ok df'.
Proof.
  intros Hc Hrows. unfold percent_column, getitem. rewrite Hc.
  cbn [mbind result_bind]. unfold astype_float, str_replace.
  match goal with |- context [mapR float ?l] =>
    destruct (mapR_is_ok float l) as (x & Hx)
  end.
  { change (map ?f ?l) with (f <$> l). rewrite !Forall_fmap.
    eapply Forall_impl; [exact Hrows|].
    intros r Hr. by apply percent_cell_ok_float in Hr. }
  rewrite Hx. by eexists.
Qed.

Lemma float_cell_ok_float v :
  is_ok (float_cell v) = true ->
  is_ok (float (if bool_decide (v = VStr "-") then NaN else v)) = true.
Proof. unfold float_cell. by destruct (float _). Qed.

Lemma float_column_succeeds c df :
  count c (columns df) = 1%nat ->
  Forall (fun r : row => is_ok (float_cell (cell c (columns df) r.2)) = true)
         (rows df) ->
  exists df', float_column c df = Ok df'.
Proof.
  intros Hc Hrows. unfold float_column, getitem. rewrite Hc.
  cbn [mbind result_bind]. rewrite (setitem_existing _ _ _ Hc).
  cbn [columns rows]. rewrite Hc. cbn [mbind result_bind].
  pose proof (assign_spec c (columns df)
                (fun v => Ok (if bool_decide (v = VStr "-") then NaN else v))
                (rows df) _ (mapR_pure _ _)) as HF.
  unfold astype_float, replace.
  match goal with |- context [mapR float ?l] =>
    destruct (mapR_is_ok float l) as (x & Hx)
  end.
  { change (map ?f ?l) with (f <$> l). rewrite Forall_fmap.
    eapply Forall2_Forall_image; [exact HF|exact Hrows|].
    intros r r' Hr (_ & y & Hy & Hr'). simpl. injection Hy as <-.
    rewrite Hr', cell_set_cell.
    destruct (has_cell _ _ _); [by apply float_cell_ok_float | done]. }
  rewrite Hx. by eexists.
Qed.

Lemma forR_float_column_succeeds ls df :
  (forall c, c ∈ ls -> count c (columns df) = 1%nat) ->
  Forall (fun r : row =>
            forall c, is_ok (float_cell (cell c (columns df) r.2)) = true)
         (rows df) ->
  exists df', forR float_column ls df = Ok df'.
Proof.
  revert df. induction ls as [|l ls IH]; intros df Hls Hrows; [by eexists|].
  destruct (float_column_succeeds l df) as (df1 & Hstep).
  { apply Hls. by left. }
  { eapply Forall_impl; [exact Hrows|]. by intros r Hr. }
  cbn [forR]. rewrite Hstep. cbn [mbind result_bind].
  destruct (float_column_spec _ _ _ Hstep) as (_ & Hcols & HF).
  apply IH.
  - intros c Hc. rewrite Hcols. apply Hls. by right.
  - rewrite Hcols.
    eapply Forall2_Forall_image; [exact HF|exact Hrows|].
    intros r r' Hr (_ & y & Hy & Hr') c. rewrite Hr'.
    destruct (decide (c = l)) as [->|Hne].
    + rewrite (set_cell_read float_cell) by done.
      by destruct (float_cell_is_float _ _ Hy) as (f & ->).
    + by rewrite cell_set_cell_ne.
Qed.

Lemma to_numbers_succeeds df :
  NoDup (columns df) ->
  (forall c, c ∈ percent_columns -> c ∈ columns df) ->
  Forall (fun r : row =>
            forall c, c ∈ columns df ->
              is_ok (cell_rule c (cell c (columns df) r.2)) = true)
         (rows df) ->
  exists df', to_numbers df = Ok df'.
Proof.
  intros Hnd Hpc Hrows. unfold to_numbers.
  assert (Hin : forall c, c ∈ percent_columns -> c ∈ columns df /\
                          count c (columns df) = 1%nat).
  { intros c Hc. split; [by apply Hpc | by apply count_NoDup, Hpc]. }
  destruct (Hin (VStr "Contango 2/1")) as [I1 N1]; [by left|].
  destruct (Hin (VStr "Contango 7/4")) as [I2 N2]; [by right; left|].
  destruct (Hin (VStr "Con 7/4 div 3")) as [I3 N3]; [by right; right; left|].
  destruct (percent_column_succeeds "Contango 2/1" df N1) as (d1 & H1).
  { eapply Forall_impl; [exact Hrows|]. intros r Hr. exact (Hr _ I1). }
  rewrite H1. cbn [mbind result_bind].
  apply percent_column_spec in H1 as (_ & U1).
  pose proof (updated_cells _ _ _ _ percent_cell_NaN U1) as F1.
  destruct U1 as [C1 _].
  destruct (percent_column_succeeds "Contango 7/4" d1) as (d2 & H2).
  { by rewrite C1. }
  { rewrite C1. eapply Forall2_Forall_image; [exact F1|exact Hrows|].
    intros r r' Hr (_ & _ & Ho). rewrite Ho by done. exact (Hr _ I2). }
  rewrite H2. cbn [mbind result_bind].
  apply percent_column_spec in H2 as (_ & U2).
  pose proof (updated_cells _ _ _ _ percent_cell_NaN U2) as F2.
  destruct U2 as [C2 _]. rewrite C1 in C2, F2.
  pose proof (Forall2_compose _ _ _ _ _ F1 F2) as F12.
  destruct (percent_column_succeeds "Con 7/4 div 3" d2) as (d3 & H3).
  { by rewrite C2. }
  { rewrite C2. eapply Forall2_Forall_image; [exact F12|exact Hrows|].
    intros r r' Hr (r1 & (_ & _ & O1) & (_ & _ & O2)).
    rewrite O2, O1 by done. exact (Hr _ I3). }
  rewrite H3. cbn [mbind result_bind].
  apply percent_column_spec in H3 as (_ & U3).
  pose proof (updated_cells _ _ _ _ percent_cell_NaN U3) as F3.
  destruct U3 as [C3 _]. rewrite C2 in C3, F3.
  pose proof (Forall2_compose _ _ _ _ _ F12 F3) as F123.
  apply forR_float_column_succeeds.
  - intros c Hc. rewrite C3 in Hc |- *. by apply count_NoDup.
  - rewrite C3. eapply Forall2_Forall_image; [exact F123|exact Hrows|].
    clear. intros r r' Hr (r2 & (r1 & (_ & P1 & O1) & (_ & P2 & O2)) & (_ & P3 & O3)) c.
    assert (Hfl : forall v y, percent_cell v = Ok y -> is_ok (float_cell y) = true).
    { intros v y (f & ->)%percent_cell_is_float. done. }
    destruct (decide (c = VStr "Con 7/4 div 3")) as [->|N3]; [by eapply Hfl|].
    rewrite O3 by done.
    destruct (decide (c = VStr "Contango 7/4")) as [->|N2]; [by eapply Hfl|].
    rewrite O2 by done.
    destruct (decide (c = VStr "Contango 2/1")) as [->|N1]; [by eapply Hfl|].
    rewrite O1 by done.
    destruct (decide (c ∈ columns df)) as [Hc|Hc].
    + specialize (Hr c Hc). unfold cell_rule in Hr.
      rewrite bool_decide_false in Hr; [done|].
      unfold percent_columns. rewrite !elem_of_cons, elem_of_nil. tauto.
    + by rewrite cell_not_elem_of.
Qed.

(** On convertible data rows the normalisation returns a table. *)
Lemma normalize_succeeds raw df1 :
  drop_sentinels raw = Ok df1 ->
  convertible to_datetime_scalar df1 ->
  exists out, normalize to_datetime_scalar raw = Ok out.
Proof.
  intros Hdrop (Hnd & HDate & Hpc & Hrows). unfold normalize.
  rewrite Hdrop. cbn [mbind result_bind].
  destruct (index_by_date_succeeds df1) as (df2 & Hidx).
  { by apply count_NoDup. }
  { eapply Forall_impl; [exact Hrows|].
    intros r (Hlen & Hd & _). split; [by apply has_cell_elem_of | done]. }
  rewrite Hidx. cbn [mbind result_bind].
  apply index_by_date_spec in Hidx as (_ & Hcols & rs & Hdated & Hsort).
  apply to_numbers_succeeds.
  - rewrite Hcols. by apply NoDup_filter.
  - intros c Hc. rewrite Hcols. apply list_elem_of_filter. split; [|by apply Hpc].
    intros ->. revert Hc. unfold percent_columns, Date.
    rewrite !elem_of_cons, elem_of_nil. by intros [|[|[|]]].
  - rewrite Hsort, Hcols, sort_rows_Permutation.
    eapply Forall2_Forall_image; [exact Hdated|exact Hrows|].
    intros r r' (_ & _ & Hc) (t & _ & _ & Hr') c [Hne Hin]%list_elem_of_filter.
    rewrite Hr', cell_del_cell_ne by done. by apply Hc.
Qed.

(** ** The placeholder ["-"] *)

(** In a column that is not a percentage column a ["-"] becomes [NaN]. *)
Lemma dash_becomes_NaN raw df1 out r c :
  drop_sentinels raw = Ok df1 ->
  normalize to_datetime_scalar raw = Ok out ->
  r ∈ rows df1 ->
  c ∈ columns df1 -> c <> Date -> c ∉ percent_columns ->
  cell c (columns df1) r.2 = VStr "-" ->
  exists t r',
    to_datetime_scalar (cell Date (columns df1) r.2) = Ok t /\
    r' ∈ rows out /\ r'.1 = VTime t /\
    cell c (columns out) r'.2 = NaN.
Proof.
  intros Hdrop Hnorm Hr Hc Hne Hnp Hcell.
  destruct (normalize_row_image _ _ _ _ Hdrop Hnorm Hr)
    as (r' & Hr' & t & Ht & Hi & Hcells).
  destruct (normalize_rows _ _ _ Hdrop Hnorm) as (Hcols & _).
  specialize (Hcells c Hc Hne).
  rewrite <- Hcols, Hcell in Hcells. unfold cell_rule in Hcells.
  rewrite bool_decide_false in Hcells by done.
  exists t, r'. repeat split; try done.
  change (float_cell (VStr "-")) with (Ok NaN) in Hcells. by injection Hcells.
Qed.

(** In a percentage column a ["-"] reaches [astype(float)] as it is, and
    the normalisation raises. *)
Lemma dash_in_percent_column_raises raw df1 r c :
  drop_sentinels raw = Ok df1 ->
  r ∈ rows df1 -> c ∈ percent_columns ->
  cell c (columns df1) r.2 = VStr "-" ->
  forall out, normalize to_datetime_scalar raw <> Ok out.
Proof.
  intros Hdrop Hr Hc Hcell out Hnorm.
  destruct (percent_cell_of_result _ _ _ _ _ _ Hdrop Hnorm Hr Hc Hcell)
    as (f & _ & _ & Hf & _).
  discriminate Hf.
Qed.

(** ** Decimal text and percentage text *)

Lemma lower_digit c : PyFloat.is_digit c = true -> PyFloat.lower c = c.
Proof.
  unfold PyFloat.is_digit, PyFloat.lower. intros H.
  apply andb_true_iff in H as [H1 H2].
  apply Nat.leb_le in H1, H2.
  replace (65 <=? nat_of_ascii c)%nat with false; [done|].
  symmetry. apply Nat.leb_gt. lia.
Qed.

Lemma floatnumber_head body m e :
  PyFloat.floatnumber body = Some (m, e) ->
  exists c rest, body = c :: rest /\
    (PyFloat.is_digit c = true \/ c = "."%char).
Proof.
  destruct body as [|c rest]; [discriminate|].
  intros H. exists c, rest. split; [done|].
  destruct (PyFloat.is_digit c) eqn:Hd; [by left|]. right.
  unfold PyFloat.floatnumber, PyFloat.digitpart in H. rewrite Hd in H.
  destruct (Ascii.eqb_spec c "."); [done|]. discriminate H.
Qed.

(** A decimal text is read as the float nearest to its number. *)
Lemma parse_decimal s neg m e :
  PyFloat.decimal s = Some (neg, m, e) ->
  PyFloat.parse s = Some (Float.of_decimal neg m e).
Proof.
  unfold PyFloat.decimal, PyFloat.parse.
  destruct (PyFloat.signed_body s) as [neg' body].
  destruct (PyFloat.floatnumber body) as [[m' e']|] eqn:Hnum; [|discriminate].
  simpl. intros [= -> -> ->].
  destruct (floatnumber_head _ _ _ Hnum) as (c & rest & -> & Hc).
  assert (Hl : PyFloat.lower c <> "i"%char /\ PyFloat.lower c <> "n"%char).
  { destruct Hc as [Hd| ->]; [|by split].
    rewrite (lower_digit _ Hd). split; intros ->; discriminate Hd. }
  destruct Hl as [Hi Hn]. cbn [map string_of_list_ascii].
  rewrite !bool_decide_false; [done| | |]; intros [= ? _]; congruence.
Qed.



(** ** The claims *)

(** C1, as the code has it: in each of the three percentage columns, a
    cell whose raw text is a decimal number [X] followed by ["%"] is found
    in the normalised table, in the row indexed by the date of its row, as
    the float [float(X) * 0.01]: the ["%"] is stripped, the rest is read
    as the nearest float and that float is multiplied by the float
    [0.01].  The result is a finite float within the relative distance
    [2^-51] of the number [X / 100]; it is that number's nearest float
    for some [X] and a neighbour of it for others. *)
Theorem C1_percent_text_within_tolerance raw df1 out r c X neg m e :
  drop_sentinels raw = Ok df1 ->
  normalize to_datetime_scalar raw = Ok out ->
  r ∈ rows df1 ->
  c ∈ percent_columns ->
  cell c (columns df1) r.2 = VStr (X +:+ "%") ->
  "%"%char ∉ list_ascii_of_string X ->
  PyFloat.decimal X = Some (neg, m, e) ->
  m = 0 \/ (2 ^ (-1000) <= inject_Z m * 10 ^ e <= 2 ^ 1000)%Q ->
  exists t r' y v,
    to_datetime_scalar (cell Date (columns df1) r.2) = Ok t /\
    r' ∈ rows out /\ r'.1 = VTime t /\
    cell c (columns out) r'.2 = VFloat y /\
    y = Float.mul (Float.of_decimal neg m e) Float.hundredth /\
    Float.value y = Some v /\
    (Qabs (v - Float.decimal_value neg m e / 100)
       <= 2 ^ (-51) * Qabs (Float.decimal_value neg m e / 100))%Q.
Proof.
  intros Hdrop Hnorm Hr Hc Hcell Hno Hdec Hrange.
  destruct (percent_cell_of_result _ _ _ _ _ _ Hdrop Hnorm Hr Hc Hcell)
    as (f' & t & r' & Hf' & Ht & Hr' & Hi & Hout).
  rewrite (replace_char_trailing_percent _ Hno) in Hf'.
  rewrite (parse_decimal _ _ _ _ Hdec) in Hf'. injection Hf' as <-.
  destruct (percent_error neg m e Hrange) as (v & Hv & Herr).
  by exists t, r', (Float.mul (Float.of_decimal neg m e) Float.hundredth), v.
Qed.

(** C3: a raw table with at least two rows and the default row labels
    0 .. n-1 loses exactly its first and its last row: the data rows are
    the rows in between; when these can be converted the normalisation
    returns a table; and the normalised table has n - 2 rows, which are
    the converted rows in between, in some order. *)
Theorem C3_first_and_last_row_dropped raw :
  (2 <= length (rows raw))%nat ->
  default_index raw ->
  rectangular raw ->
  exists first mid last,
    rows raw = first :: mid ++ [last] /\
    drop_sentinels raw = Ok (mkDataFrame first.2 mid) /\
    (convertible to_datetime_scalar (mkDataFrame first.2 mid) ->
     exists out, normalize to_datetime_scalar raw = Ok out) /\
    forall out,
      normalize to_datetime_scalar raw = Ok out ->
      length (rows out) = (length (rows raw) - 2)%nat /\
      exists l, Forall2 (normal_row to_datetime_scalar first.2) mid l /\ l ≡ₚ rows out.
Proof.
  intros Hlen Hidx Hrect.
  destruct (rows raw) as [|first rest] eqn:Hrows; [simpl in Hlen; lia|].
  destruct rest as [|x rest' _] using rev_ind; [simpl in Hlen; lia|].
  exists first, rest', x. split; [done|].
  pose proof (drop_sentinels_default _ _ _ _ Hrows Hidx Hrect) as Hdrop.
  split; [done|]. split; [by apply normalize_succeeds|]. intros out Hnorm.
  destruct (normalize_rows _ _ _ Hdrop Hnorm) as (_ & l & HF & Hperm).
  split; [|by exists l].
  rewrite <- Hperm, <- (Forall2_length _ _ _ HF). simpl.
  rewrite length_app. simpl. lia.
Qed.

(** C4, as the code has it: the index of the normalised table is the
    dates of the data rows in ascending order, equal dates kept; it is
    strictly ascending and free of duplicates exactly when the dates of
    the data rows are distinct. *)
Theorem C4_index_ascending raw out :
  normalize to_datetime_scalar raw = Ok out ->
  exists df1 ts ts',
    drop_sentinels raw = Ok df1 /\
    dates to_datetime_scalar df1 = Ok ts /\
    (rows out).*1 = map VTime ts' /\
    ts' ≡ₚ ts /\
    Sorted datetime_le ts' /\
    (NoDup ts <-> Sorted datetime_lt ts' /\ NoDup ts').
Proof.
  intros Hnorm.
  destruct (drop_sentinels raw) as [df1|e] eqn:Hdrop.
  2:{ unfold normalize in Hnorm. by rewrite Hdrop in Hnorm. }
  destruct (normalize_index _ _ _ Hdrop Hnorm)
    as (ts & ts' & Hts & Hidx & Hperm & Hsorted).
  exists df1, ts, ts'. repeat split; try done.
  - apply Sorted_le_NoDup_lt; [done|]. by rewrite Hperm.
  - by rewrite Hperm.
  - intros [_ Hnd]. by rewrite <- Hperm.
Qed.




End Pipeline.

(** ** Dates *)

Section Dates.

Context {content : Type}.
Variable read_date : value -> option Z.
Variable csv_text : DataFrame -> content.

Import pd.

Lemma datetime_of_missing v :
  missing_date v = true -> datetime_of read_date v = Ok NaT.
Proof.
  destruct v as [s|f|n|t]; simpl.
  - by intros ->.
  - by intros ->.
  - discriminate.
  - by intros ->%bool_decide_eq_true.
Qed.

Lemma datetime_of_unreadable s :
  missing_text s = false -> read_date (VStr s) = None ->
  datetime_of read_date (VStr s) = Raise ValueError.
Proof. simpl. by intros -> ->. Qed.

(** C7, as the code has it: a [Date] text that is not one of the texts
    for a missing date and that [pd.to_datetime] cannot read makes the
    function return [False] with nothing written.  When the function
    succeeds, the index of the written table is made of what
    [pd.to_datetime] gives for the [Date] cells of all data rows, none
    left out; a missing date (an empty cell, the empty text, ["NaT"],
    ["nan"]) is not an error: its row is in the table, converted like
    any other row and indexed by [NaT]. *)
Theorem C7_unreadable_date_fails_missing_date_is_NaT
    read_html folder fs raw rest df1 :
  read_html url = Ok (raw :: rest) ->
  drop_sentinels raw = Ok df1 ->
  ((exists r s, r ∈ rows df1 /\
                cell Date (columns df1) r.2 = VStr s /\
                missing_text s = false /\
                read_date (VStr s) = None) ->
   get_and_save_vix_contago (datetime_of read_date) csv_text read_html folder fs
     = (false, fs)) /\
  (forall out,
     normalize (datetime_of read_date) raw = Ok out ->
     (exists ts, dates (datetime_of read_date) df1 = Ok ts /\
                 (rows out).*1 ≡ₚ map VTime ts) /\
     (forall r,
        r ∈ rows df1 ->
        missing_date (cell Date (columns df1) r.2) = true ->
        exists r',
          r' ∈ rows out /\ r'.1 = VTime NaT /\
          forall c, c ∈ columns df1 -> c <> Date ->
            cell_rule c (cell c (columns df1) r.2)
              = Ok (cell c (columns out) r'.2))).
Proof.
  intros Hfetch Hdrop. split.
  - intros (r & s & Hr & Hcell & Hmiss & Hbad). apply get_and_save_fails.
    intros raw' rest' out Hfetch'. rewrite Hfetch in Hfetch'.
    injection Hfetch' as <- <-.
    eapply normalize_bad_date; [exact Hdrop | exact Hr |].
    rewrite Hcell. by apply datetime_of_unreadable.
  - intros out Hnorm. split.
    + destruct (normalize_index _ _ _ _ Hdrop Hnorm)
        as (ts & ts' & Hts & Hidx & Hperm & _).
      exists ts. split; [done|]. rewrite Hidx.
      change (map VTime ?l) with (VTime <$> l). by apply fmap_Permutation.
    + intros r Hr Hmiss.
      destruct (normalize_row_image _ _ _ _ _ Hdrop Hnorm Hr)
        as (r' & Hr' & t & Ht & Hi & Hcells).
      destruct (normalize_rows _ _ _ _ Hdrop Hnorm) as (Hcols & _).
      rewrite (datetime_of_missing _ Hmiss) in Ht. injection Ht as <-.
      exists r'. split; [done|]. split; [done|]. by rewrite Hcols.
Qed.

End Dates.

(** ** The model on concrete pages *)

Example quotes_normalized :
  normalize Iso.to_datetime_scalar quotes = Ok quotes_out.
Proof. vm_compute. reflexivity. Qed.

(** The floats of [quotes_out], written with their mantissa and
    exponent: [12.5], [0.35000000000000003], [0.12], [-0.015], and [0.1],
    [0.2], [0.3]. *)
Example quotes_out_floats :
  (rows quotes_out).*2 =
  [ [VFloat (S754_finite false 7036874417766400 (-49));
     VFloat (S754_finite false 6305039478318695 (-54));
     VFloat (S754_finite false 8646911284551352 (-56));
     VFloat (S754_finite true 8646911284551352 (-59))];
    [VFloat S754_nan;
     VFloat (S754_finite false 7205759403792794 (-56));
     VFloat (S754_finite false 7205759403792794 (-55));
     VFloat (S754_finite false 5404319552844595 (-54))] ].
Proof. vm_compute. reflexivity. Qed.

Example quotes_saved :
  get_and_save_vix_contago Iso.to_datetime_scalar as_written
    (fun _ => Ok [quotes]) "out" disk
  = (true, mkFS {["out"]} {["out/vix_contago.csv" := quotes_out]}).
Proof. vm_compute. reflexivity. Qed.

Example hundredth_is_the_literal : PyFloat.parse "0.01" = Some Float.hundredth.
Proof. vm_compute. reflexivity. Qed.

(** The numbers some texts denote: sign, digits and power of ten. *)
Example decimal_readings :
  PyFloat.decimal "10" = Some (false, 10, 0) /\
  PyFloat.decimal "35" = Some (false, 35, 0) /\
  PyFloat.decimal "12.5" = Some (false, 125, -1) /\
  PyFloat.decimal "-1.5" = Some (true, 15, -1) /\
  PyFloat.decimal " +.25e-3 " = Some (false, 25, -5) /\
  PyFloat.decimal "1_000.e2" = Some (false, 1000, 2) /\
  PyFloat.decimal "1__0" = None /\
  PyFloat.decimal "1,5" = None /\
  PyFloat.decimal "inf" = None.
Proof. vm_compute. repeat split; reflexivity. Qed.

(** [float] on some texts: the nearest float, with its mantissa and
    exponent; a no-break space (U+00A0) around the number is ignored, the
    control character U+001F is not; Arabic-Indic digits are digits. *)
Example float_readings :
  PyFloat.parse "0.1" = Some (S754_finite false 7205759403792794 (-56)) /\
  PyFloat.parse "0.35" = Some (S754_finite false 6305039478318694 (-54)) /\
  PyFloat.parse "14.1" = Some (S754_finite false 7937594343240499 (-49)) /\
  PyFloat.parse "1e400" = Some (S754_infinity false) /\
  PyFloat.parse "5e-324" = Some (S754_finite false 1 (-1074)) /\
  PyFloat.parse "-NaN" = Some S754_nan /\
  PyFloat.parse ("12.5" +:+ String "194" (String "160" ""))
    = Some (S754_finite false 7036874417766400 (-49)) /\
  PyFloat.parse (String "031" "12.5") = None /\
  PyFloat.parse (String "217" (String "161" (String "217" (String "162" ""))))
    = Some (S754_finite false 6755399441055744 (-49)) /\
  PyFloat.parse "-" = None /\
  PyFloat.parse "" = None.
Proof. vm_compute. repeat split; reflexivity. Qed.

(** The product and the rounding of this file give what the Standard
    Library's [SFmul] and [binary_normalize] give, here on the products
    of some floats of all kinds and on some quotients. *)
Example mul_is_SFmul :
  let xs := [ S754_zero false; S754_zero true; S754_nan;
              S754_infinity false; S754_infinity true;
              Float.hundredth; S754_finite true 7036874417766400 (-49);
              S754_finite false 1 (-1074); S754_finite true 3 (-1074);
              S754_finite false 4503599627370496 (-1074);
              S754_finite false 9007199254740991 971;
              S754_finite false 6305039478318695 (-54);
              S754_finite false 4503599627370496 (-538);
              S754_finite true 9007199254740991 (-590);
              S754_finite false 6004799503160661 459 ] in
  forallb (fun x => forallb (fun y =>
             bool_decide (Float.mul x y = SFmul prec emax x y)) xs) xs = true.
Proof. vm_compute. reflexivity. Qed.

Example of_ratio_is_binary_normalize :
  forallb (fun p => forallb (fun q =>
             bool_decide
               (Float.of_ratio false p q =
                binary_normalize prec emax (p * 2 ^ 1200 / q * 2 + 1)
                  (-1201) false))
             [3; 7; 10; 100; 2 ^ 60 + 1; 10 ^ 40 + 1; 3 * 2 ^ 1073 + 1])
          [1; 35; 3 * 10 ^ 20; 2 ^ 53 + 1; 5 * 2 ^ 1073 + 1;
           2 ^ 1100 - 1; 10 ^ 310 + 7] = true.
Proof. vm_compute. reflexivity. Qed.

(** For every percentage with one decimal from -100.0 to 100.0, the float
    of the text times [0.01] is the binary64 value nearest to the
    hundredth of the percentage, or one of its two neighbours. *)
Example one_decimal_percentages_within_one_ulp :
  forallb
    (fun k =>
       Float.within_one_ulp
         (Float.mul (Float.of_decimal (k <? 0) (Z.abs k) (-1)) Float.hundredth)
         (Float.of_decimal (k <? 0) (Z.abs k) (-3)))
    (seqZ (-1000) 2001) = true.
Proof. vm_compute. reflexivity. Qed.

Example product_is_not_quotient :
  PyFloat.parse "0.35000000000000003" <> PyFloat.parse "0.35".
Proof. vm_compute. discriminate. Qed.

(** ** The claims on concrete pages *)

(** C1 as stated fails on the page [quotes]: the cell ["35%"] is written
    as the float [0.35000000000000003], the product of the floats [35]
    and [0.01]; the float of [35 / 100], the quotient of the floats [35]
    and [100] and the float of the text ["0.35"], is the float just
    below it. *)
Lemma C1_counterexample :
  drop_sentinels quotes = Ok quotes_data /\
  pd.cell (VStr "Contango 2/1") (columns quotes_data)
    (text_row 2 ["2020-01-01"; "12.5"; "35%"; "1%2%"; "-1.5%"]).2 = VStr "35%" /\
  normalize Iso.to_datetime_scalar quotes = Ok quotes_out /\
  (exists r', rows quotes_out !! 0%nat = Some r' /\
              r'.1 = day "2020-01-01" /\
              pd.cell (VStr "Contango 2/1") (columns quotes_out) r'.2
                = VFloat (S754_finite false 6305039478318695 (-54))) /\
  Float.of_ratio false 35 100 = S754_finite false 6305039478318694 (-54) /\
  PyFloat.parse "0.35" = Some (S754_finite false 6305039478318694 (-54)) /\
  S754_finite false 6305039478318695 (-54) <> Float.of_ratio false 35 100.
Proof.
  split; [vm_compute; reflexivity|]. split; [reflexivity|].
  split; [vm_compute; reflexivity|]. split.
  - eexists. split; [reflexivity|]. split; vm_compute; reflexivity.
  - split; [vm_compute; reflexivity|].
    split; [vm_compute; reflexivity|]. vm_compute. discriminate.
Qed.

(** C1 on the page [quotes]: ["10%"] becomes a float within [2^-51] of
    [10 / 100]. *)
Lemma C1_witness :
  exists t r' y v,
    Iso.to_datetime_scalar (VStr "2020-01-02") = Ok t /\
    r' ∈ rows quotes_out /\ r'.1 = VTime t /\
    pd.cell (VStr "Contango 2/1") (columns quotes_out) r'.2 = VFloat y /\
    y = Float.mul (Float.of_decimal false 10 0) Float.hundredth /\
    Float.value y = Some v /\
    (Qabs (v - Float.decimal_value false 10 0 / 100)
       <= 2 ^ (-51) * Qabs (Float.decimal_value false 10 0 / 100))%Q.
Proof.
  apply (C1_percent_text_within_tolerance Iso.to_datetime_scalar
           quotes quotes_data quotes_out
           (text_row 1 ["2020-01-02"; "-"; "10%"; "20%"; "30%"])
           (VStr "Contango 2/1") "10" false 10 0).
  - vm_compute. reflexivity.
  - vm_compute. reflexivity.
  - apply list_elem_of_here.
  - apply list_elem_of_here.
  - reflexivity.
  - apply (bool_decide_unpack _). vm_compute. exact I.
  - vm_compute. reflexivity.
  - right. split; vm_compute; discriminate.
Defined.

(** C2, at a failing input: with a ["-"] in the percentage column
    [Contango 2/1] the normalisation raises [ValueError], the function
    returns [False] and nothing is written; the claim has the cell become
    [NaN]. *)
Theorem C2_dash_in_percent_column_fails :
  drop_sentinels dash_percent = Ok dash_percent_data /\
  pd.cell (VStr "Contango 2/1") (columns dash_percent_data)
    (text_row 1 ["2020-01-02"; "14.1"; "-"; "20%"; "30%"]).2 = VStr "-" /\
  normalize Iso.to_datetime_scalar dash_percent = Raise ValueError /\
  get_and_save_vix_contago Iso.to_datetime_scalar as_written
    (fun _ => Ok [dash_percent]) "out" disk = (false, disk).
Proof. vm_compute. repeat split; reflexivity. Qed.

(** C3 on the page [quotes]. *)
Lemma C3_witness :
  exists first mid last,
    rows quotes = first :: mid ++ [last] /\
    drop_sentinels quotes = Ok (mkDataFrame first.2 mid) /\
    (convertible Iso.to_datetime_scalar (mkDataFrame first.2 mid) ->
     exists out, normalize Iso.to_datetime_scalar quotes = Ok out) /\
    forall out,
      normalize Iso.to_datetime_scalar quotes = Ok out ->
      length (rows out) = (length (rows quotes) - 2)%nat /\
      exists l, Forall2 (normal_row Iso.to_datetime_scalar first.2) mid l /\
                l ≡ₚ rows out.
Proof.
  apply (C3_first_and_last_row_dropped Iso.to_datetime_scalar quotes).
  - vm_compute. lia.
  - reflexivity.
  - repeat constructor.
Defined.

(** C4 as stated fails: two data rows with the same date, both parsed,
    give an index with that date twice, which is neither strictly
    ascending nor free of duplicates. *)
Lemma C4_counterexample :
  drop_sentinels same_day = Ok same_day_data /\
  dates Iso.to_datetime_scalar same_day_data
    = Ok [date_of "2020-01-02"; date_of "2020-01-02"] /\
  normalize Iso.to_datetime_scalar same_day = Ok same_day_out /\
  (rows same_day_out).*1 = [day "2020-01-02"; day "2020-01-02"] /\
  ~ Sorted datetime_lt [date_of "2020-01-02"; date_of "2020-01-02"] /\
  ~ NoDup (rows same_day_out).*1.
Proof.
  split; [vm_compute; reflexivity|].
  split; [vm_compute; reflexivity|]. split; [vm_compute; reflexivity|].
  split; [reflexivity|]. split.
  - intros H. inversion H as [|? ? _ Hhd]; subst.
    inversion Hhd as [|? ? [_ Hne]]; subst. by apply Hne.
  - intros H. apply NoDup_cons in H as [Hnin _]. apply Hnin. by left.
Qed.

(** C4 on the page [quotes]. *)
Lemma C4_witness :
  exists df1 ts ts',
    drop_sentinels quotes = Ok df1 /\
    dates Iso.to_datetime_scalar df1 = Ok ts /\
    (rows quotes_out).*1 = map VTime ts' /\
    ts' ≡ₚ ts /\
    Sorted datetime_le ts' /\
    (NoDup ts <-> Sorted datetime_lt ts' /\ NoDup ts').
Proof.
  apply (C4_index_ascending Iso.to_datetime_scalar quotes quotes_out).
  vm_compute. reflexivity.
Defined.


(** C7 as stated fails on the page [blank_dates]: the dates [""], an
    empty cell and ["NaT"] are no calendar dates, yet the function
    returns [True] and the three rows are written, indexed by [NaT]. *)
Lemma C7_counterexample :
  drop_sentinels blank_dates = Ok blank_dates_data /\
  map (fun r : row => pd.cell Date (columns blank_dates_data) r.2)
      (rows blank_dates_data)
    = [VStr ""; VStr "2020-01-02"; NaN; VStr "NaT"] /\
  normalize Iso.to_datetime_scalar blank_dates = Ok blank_dates_out /\
  (rows blank_dates_out).*1
    = [day "2020-01-02"; VTime NaT; VTime NaT; VTime NaT] /\
  get_and_save_vix_contago Iso.to_datetime_scalar as_written
    (fun _ => Ok [blank_dates]) "out" disk
  = (true, mkFS {["out"]} {["out/vix_contago.csv" := blank_dates_out]}).
Proof. vm_compute. repeat split; reflexivity. Qed.

Example bad_date_fails :
  missing_text "n/a" = false /\
  get_and_save_vix_contago Iso.to_datetime_scalar as_written
    (fun _ => Ok [bad_date]) "out" disk = (false, disk).
Proof. vm_compute. split; reflexivity. Qed.

(** C7 on the page [bad_date], whose second data row has the date
    ["n/a"]. *)
Lemma C7_witness :
  ((exists r s, r ∈ rows bad_date_data /\
                pd.cell Date (columns bad_date_data) r.2 = VStr s /\
                missing_text s = false /\
                Iso.read (VStr s) = None) ->
   get_and_save_vix_contago (datetime_of Iso.read) as_written
     (fun _ => Ok [bad_date]) "out" disk = (false, disk)) /\
  (forall out,
     normalize (datetime_of Iso.read) bad_date = Ok out ->
     (exists ts, dates (datetime_of Iso.read) bad_date_data = Ok ts /\
                 (rows out).*1 ≡ₚ map VTime ts) /\
     (forall r,
        r ∈ rows bad_date_data ->
        missing_date (pd.cell Date (columns bad_date_data) r.2) = true ->
        exists r',
          r' ∈ rows out /\ r'.1 = VTime NaT /\
          forall c, c ∈ columns bad_date_data -> c <> Date ->
            cell_rule c (pd.cell c (columns bad_date_data) r.2)
              = Ok (pd.cell c (columns out) r'.2))).
Proof.
  apply (C7_unreadable_date_fails_missing_date_is_NaT Iso.read as_written
           (fun _ => Ok [bad_date]) "out" disk bad_date [] bad_date_data).
  - reflexivity.
  - vm_compute. reflexivity.
Defined.



(** The text ["1%2%"] without its ["%"] characters is ["12"], the float
    of ["12"] is [12], and [12] times [0.01] is the float [0.12]. *)
Example one_percent_two_percent :
  without_percent "1%2%" = "12" /\
  PyFloat.parse "12" = Some (S754_finite false 6755399441055744 (-49)) /\
  Float.mul (S754_finite false 6755399441055744 (-49)) Float.hundredth
    = S754_finite false 8646911284551352 (-56) /\
  PyFloat.parse "1%2%" = None.
Proof. vm_compute. repeat split; reflexivity. Qed.

Example gaps_normalized : normalize Iso.to_datetime_scalar gaps = Ok gaps_out.
Proof. vm_compute. reflexivity. Qed.

(** ** Further behaviour of the function *)

Section Behaviour.

Context {content : Type}.
Variable to_datetime_scalar : value -> result datetime.
Variable csv_text : DataFrame -> content.

Import pd.

(** The cell of the result under a label other than [Date], for a given
    data row: the cell of the data row converted by the rule of its
    column. *)
Lemma result_cell raw df1 out r c :
  drop_sentinels raw = Ok df1 ->
  normalize to_datetime_scalar raw = Ok out ->
  r ∈ rows df1 -> c ∈ columns df1 -> c <> Date ->
  exists t r',
    to_datetime_scalar (cell Date (columns df1) r.2) = Ok t /\
    r' ∈ rows out /\ r'.1 = VTime t /\
    cell_rule c (cell c (columns df1) r.2) = Ok (cell c (columns out) r'.2).
Proof.
  intros Hdrop Hnorm Hr Hc Hne.
  destruct (normalize_row_image _ _ _ _ _ Hdrop Hnorm Hr)
    as (r' & Hr' & t & Ht & Hi & Hcells).
  destruct (normalize_rows _ _ _ _ Hdrop Hnorm) as (Hcols & _).
  exists t, r'. repeat split; try done. rewrite Hcols. by apply Hcells.
Qed.

Lemma normalize_needs_date raw df1 out :
  drop_sentinels raw = Ok df1 ->
  normalize to_datetime_scalar raw = Ok out ->
  Date ∈ columns df1.
Proof.
  unfold normalize. intros Hdrop H. rewrite Hdrop in H. simpl in H.
  apply bind_Ok in H as (df2 & Hidx & _).
  apply index_by_date_spec in Hidx as (Hc & _).
  apply count_pos_elem_of. lia.
Qed.

Lemma drop_sentinels_needs_two_rows raw df1 :
  drop_sentinels raw = Ok df1 -> (2 <= length (rows raw))%nat.
Proof.
  unfold drop_sentinels. intros H.
  apply bind_Ok in H as (hdr & Hh & H).
  apply bind_Ok in H as (d0 & H0 & H).
  apply bind_Ok in H as (d1 & H1 & H2).
  unfold set_columns in H0. case_bool_decide; [|discriminate]. injection H0 as <-.
  unfold drop in H1. cbn [rows columns] in H1.
  case_bool_decide as Hzero; [|discriminate]. injection H1 as <-.
  unfold drop, len in H2. cbn [rows columns] in H2.
  case_bool_decide as Hlast; [|discriminate].
  destruct (rows raw) as [|r [|r2 rs]]; [| |simpl; lia]; exfalso.
  - by apply elem_of_nil in Hzero.
  - apply list_elem_of_fmap in Hzero as (r0 & Heq & ->%list_elem_of_singleton).
    rewrite filter_cons_False in Hlast by (intros Hn; by apply Hn).
    by apply elem_of_nil in Hlast.
Qed.

(** X1: a page whose header row has no [Date] label makes line 19 raise:
    the function returns [False] and the file system is as it was. *)
Theorem X1_missing_date_column_fails read_html folder fs raw rest df1 :
  read_html url = Ok (raw :: rest) ->
  drop_sentinels raw = Ok df1 ->
  Date ∉ columns df1 ->
  get_and_save_vix_contago to_datetime_scalar csv_text read_html folder fs
    = (false, fs).
Proof.
  intros Hfetch Hdrop Hno. apply get_and_save_fails.
  intros raw' rest' out Hfetch' Hnorm. rewrite Hfetch in Hfetch'.
  injection Hfetch' as <- <-.
  apply Hno. by eapply normalize_needs_date.
Qed.

(** X2: a page whose header row lacks one of the three percentage labels
    makes lines 21 to 23 raise: the function returns [False] and the file
    system is as it was. *)
Theorem X2_missing_percent_column_fails read_html folder fs raw rest df1 c :
  read_html url = Ok (raw :: rest) ->
  drop_sentinels raw = Ok df1 ->
  c ∈ percent_columns ->
  c ∉ columns df1 ->
  get_and_save_vix_contago to_datetime_scalar csv_text read_html folder fs
    = (false, fs).
Proof.
  intros Hfetch Hdrop Hc Hno. apply get_and_save_fails.
  intros raw' rest' out Hfetch' Hnorm. rewrite Hfetch in Hfetch'.
  injection Hfetch' as <- <-.
  apply Hno. by eapply normalize_percent_columns.
Qed.

(** X3: a table with fewer than two rows, whatever its row labels, makes
    lines 16 to 18 raise ([iloc[0]] on no row, or a [drop] of a label that
    is not there): the function returns [False] and the file system is as
    it was. *)
Theorem X3_fewer_than_two_rows_fails read_html folder fs raw rest :
  read_html url = Ok (raw :: rest) ->
  (length (rows raw) < 2)%nat ->
  get_and_save_vix_contago to_datetime_scalar csv_text read_html folder fs
    = (false, fs).
Proof.
  intros Hfetch Hlen. apply get_and_save_fails.
  intros raw' rest' out Hfetch' Hnorm. rewrite Hfetch in Hfetch'.
  injection Hfetch' as <- <-.
  unfold normalize in Hnorm. apply bind_Ok in Hnorm as (df1 & Hdrop & _).
  apply drop_sentinels_needs_two_rows in Hdrop. lia.
Qed.

(** X4: one cell outside the [Date] column that holds ASCII text and that
    its column's conversion rejects (text that is not a float once the
    ["%"] are removed, in a percentage column; text that is neither ["-"]
    nor a float, in another column) fails the whole run: the function
    returns [False] and the file system is as it was. *)
Theorem X4_unconvertible_cell_fails read_html folder fs raw rest df1 r c e :
  read_html url = Ok (raw :: rest) ->
  drop_sentinels raw = Ok df1 ->
  r ∈ rows df1 -> c ∈ columns df1 -> c <> Date ->
  ascii_cell (cell c (columns df1) r.2) = true ->
  cell_rule c (cell c (columns df1) r.2) = Raise e ->
  get_and_save_vix_contago to_datetime_scalar csv_text read_html folder fs
    = (false, fs).
Proof.
  intros Hfetch Hdrop Hr Hc Hne _ Hbad. apply get_and_save_fails.
  intros raw' rest' out Hfetch' Hnorm. rewrite Hfetch in Hfetch'.
  injection Hfetch' as <- <-.
  destruct (result_cell _ _ _ _ _ Hdrop Hnorm Hr Hc Hne)
    as (t & r' & _ & _ & _ & Hrule).
  congruence.
Qed.

(** X5: in a column that is neither [Date] nor a percentage column, a
    cell whose text [float] reads as a float (a decimal number, [inf] or
    [nan], white space around it ignored) is found in the result, in
    the row indexed by the date of its row, as that float. *)
Theorem X5_number_text_becomes_float raw df1 out r c s f :
  drop_sentinels raw = Ok df1 ->
  normalize to_datetime_scalar raw = Ok out ->
  r ∈ rows df1 -> c ∈ columns df1 -> c <> Date -> c ∉ percent_columns ->
  cell c (columns df1) r.2 = VStr s ->
  PyFloat.parse s = Some f ->
  exists t r',
    to_datetime_scalar (cell Date (columns df1) r.2) = Ok t /\
    r' ∈ rows out /\ r'.1 = VTime t /\
    cell c (columns out) r'.2 = VFloat f.
Proof.
  intros Hdrop Hnorm Hr Hc Hne Hnp Hcell Hf.
  destruct (result_cell _ _ _ _ _ Hdrop Hnorm Hr Hc Hne)
    as (t & r' & Ht & Hr' & Hi & Hrule).
  exists t, r'. repeat split; try done.
  rewrite Hcell in Hrule. unfold cell_rule, float_cell in Hrule.
  rewrite bool_decide_false in Hrule by done.
  case_bool_decide as Hdash.
  - injection Hdash as ->. discriminate Hf.
  - unfold float in Hrule. rewrite Hf in Hrule. simpl in Hrule.
    by injection Hrule.
Qed.

(** X6: in a column that is neither [Date] nor a percentage column, a
    cell whose text is ["-"] is found in the result as [NaN], in the row
    indexed by the date of its row. *)
Theorem X6_dash_becomes_NaN_in_other_columns raw df1 out r c :
  drop_sentinels raw = Ok df1 ->
  normalize to_datetime_scalar raw = Ok out ->
  r ∈ rows df1 -> c ∈ columns df1 -> c <> Date -> c ∉ percent_columns ->
  cell c (columns df1) r.2 = VStr "-" ->
  exists t r',
    to_datetime_scalar (cell Date (columns df1) r.2) = Ok t /\
    r' ∈ rows out /\ r'.1 = VTime t /\
    cell c (columns out) r'.2 = NaN.
Proof.
  intros Hdrop Hnorm Hr Hc Hne Hnp Hcell.
  destruct (result_cell _ _ _ _ _ Hdrop Hnorm Hr Hc Hne)
    as (t & r' & Ht & Hr' & Hi & Hrule).
  exists t, r'. repeat split; try done.
  rewrite Hcell in Hrule. unfold cell_rule in Hrule.
  rewrite bool_decide_false in Hrule by done.
  change (float_cell (VStr "-")) with (Ok NaN) in Hrule. by injection Hrule.
Qed.

(** X7: a missing cell ([NaN]) outside the [Date] column, in a
    percentage column or in another one, does not fail the run and is
    [NaN] in the result. *)
Theorem X7_missing_cell_stays_missing raw df1 out r c :
  drop_sentinels raw = Ok df1 ->
  normalize to_datetime_scalar raw = Ok out ->
  r ∈ rows df1 -> c ∈ columns df1 -> c <> Date ->
  cell c (columns df1) r.2 = NaN ->
  exists t r',
    to_datetime_scalar (cell Date (columns df1) r.2) = Ok t /\
    r' ∈ rows out /\ r'.1 = VTime t /\
    cell c (columns out) r'.2 = NaN.
Proof.
  intros Hdrop Hnorm Hr Hc Hne Hcell.
  destruct (result_cell _ _ _ _ _ Hdrop Hnorm Hr Hc Hne)
    as (t & r' & Ht & Hr' & Hi & Hrule).
  exists t, r'. repeat split; try done.
  rewrite Hcell in Hrule. unfold cell_rule in Hrule.
  case_bool_decide.
  - rewrite percent_cell_NaN in Hrule. by injection Hrule.
  - change (float_cell NaN) with (Ok NaN) in Hrule. by injection Hrule.
Qed.

(** X8: the columns of the result are the cells of the first raw row,
    in their order, without [Date]; the labels the raw table came with
    are not used. *)
Theorem X8_columns_are_first_row_without_date raw out :
  normalize to_datetime_scalar raw = Ok out ->
  exists first rest,
    rows raw = first :: rest /\
    columns out = filter (fun l => l <> Date) first.2.
Proof.
  intros Hnorm.
  destruct (drop_sentinels raw) as [df1|e] eqn:Hdrop.
  2:{ unfold normalize in Hnorm. by rewrite Hdrop in Hnorm. }
  destruct (normalize_rows _ _ _ _ Hdrop Hnorm) as (Hcols & _).
  unfold drop_sentinels, iloc0 in Hdrop.
  destruct (rows raw) as [|first rest] eqn:Hrows; [discriminate|].
  exists first, rest. split; [done|]. rewrite Hcols. f_equal.
  cbn [mbind result_bind] in Hdrop.
  apply bind_Ok in Hdrop as (d0 & H0 & Hdrop).
  apply bind_Ok in Hdrop as (d1 & H1 & H2).
  unfold set_columns in H0. case_bool_decide; [|discriminate].
  injection H0 as <-.
  unfold drop in H1, H2.
  repeat (case_bool_decide; [|discriminate]).
  injection H1 as <-. by injection H2 as <-.
Qed.

(** X9: no text is left in the result: every index label is a timestamp
    and every cell under a column label is a float. *)
Theorem X9_result_holds_only_timestamps_and_floats raw out r' :
  normalize to_datetime_scalar raw = Ok out ->
  r' ∈ rows out ->
  (exists t, r'.1 = VTime t) /\
  forall c, c ∈ columns out -> exists f, cell c (columns out) r'.2 = VFloat f.
Proof.
  intros Hnorm Hr'.
  destruct (drop_sentinels raw) as [df1|e] eqn:Hdrop.
  2:{ unfold normalize in Hnorm. by rewrite Hdrop in Hnorm. }
  destruct (normalize_rows _ _ _ _ Hdrop Hnorm) as (Hcols & _).
  destruct (normalize_row_origin _ _ _ _ _ Hdrop Hnorm Hr')
    as (r & Hr & t & Ht & Hi & Hcells).
  split; [by exists t|]. intros c Hc. rewrite Hcols in Hc |- *.
  apply list_elem_of_filter in Hc as [Hne Hc].
  specialize (Hcells c Hc Hne). unfold cell_rule in Hcells.
  case_bool_decide.
  - destruct (percent_cell_is_float _ _ Hcells) as (f & ->). by exists f.
  - destruct (float_cell_is_float _ _ Hcells) as (f & ->). by exists f.
Qed.

Lemma StronglySorted_lookup_lt {A} (R : relation A) (l : list A) i j x y :
  StronglySorted R l -> (i < j)%nat ->
  l !! i = Some x -> l !! j = Some y -> R x y.
Proof.
  intros Hs. revert i j. induction Hs as [|a l _ IH Hall]; intros i j Hij Hi Hj.
  - by rewrite lookup_nil in Hi.
  - destruct j as [|j]; [lia|]. destruct i as [|i].
    + injection Hi as ->. simpl in Hj.
      eapply Forall_forall in Hall; [exact Hall|]. by eapply list_elem_of_lookup_2.
    + simpl in Hi, Hj. eapply (IH i j); [lia|done|done].
Qed.

(** X10: a run changes at most one thing in the file system, the file
    [vix_contago.csv] of the folder given on the command line: no
    directory is created or removed and every other path holds what it
    held, whatever the arguments and whatever the network answers. *)
Theorem X10_only_the_csv_file_changes argv read_html fs :
  let fs' := (main to_datetime_scalar csv_text argv read_html fs).2 in
  dirs fs' = dirs fs /\
  forall p,
    (forall folder, argv !! 1%nat = Some folder ->
                    p <> folder +:+ "/" +:+ "vix_contago.csv") ->
    files fs' !! p = files fs !! p.
Proof.
  unfold main. destruct (argv !! 1%nat) as [folder|]; [|done].
  rewrite get_and_save_block.
  destruct (try_block _ _ _ _ _) as [fs1|e] eqn:Hblock; simpl.
  - apply try_block_Ok in Hblock as (raw & rest & out & _ & _ & Hcsv).
    apply to_csv_Ok in Hcsv as (_ & _ & _ & ->). simpl. split; [done|].
    intros p Hp. apply lookup_insert_ne. intros <-. by apply (Hp folder).
  - destruct (is_ok _); [|done]. split; [apply interrupted_write_dirs|].
    intros p Hp. apply interrupted_write_files. by apply Hp.
Qed.

(** X11: when the destination folder does not exist the write of line 28
    raises inside the [try]: the function returns [False], the process
    ends with status 1 and the file system is as it was, also for a page
    that normalises without error. *)
Theorem X11_missing_folder_fails read_html folder fs prog more :
  folder ∉ dirs fs ->
  get_and_save_vix_contago to_datetime_scalar csv_text read_html folder fs
    = (false, fs) /\
  main to_datetime_scalar csv_text (prog :: folder :: more) read_html fs = (1, fs).
Proof.
  intros Hno.
  assert (Hrun : get_and_save_vix_contago to_datetime_scalar csv_text
                   read_html folder fs = (false, fs)).
  { rewrite get_and_save_block.
    destruct (try_block _ _ _ _ _) as [fs'|e] eqn:Hblock.
    - apply try_block_Ok in Hblock as (raw & rest & out & _ & _ & Hcsv).
      by apply to_csv_Ok in Hcsv as (? & _).
    - rewrite interrupted_write_missing by done. by destruct (is_ok _). }
  split; [done|]. unfold main. cbn [lookup list_lookup]. by rewrite Hrun.
Qed.


(** X13: the result depends on the first row's cells and on the rows
    between the first and the last only: two pages with the default row
    labels that agree on these give the same result, whatever their
    column labels and whatever their last rows hold. *)
Theorem X13_footer_and_raw_labels_are_ignored
    raw raw' first first' mid last last' :
  rows raw = first :: mid ++ [last] ->
  rows raw' = first' :: mid ++ [last'] ->
  first'.2 = first.2 ->
  default_index raw -> default_index raw' ->
  rectangular raw -> rectangular raw' ->
  normalize to_datetime_scalar raw = normalize to_datetime_scalar raw'.
Proof.
  intros Hrows Hrows' Hfirst Hidx Hidx' Hrect Hrect'. unfold normalize.
  rewrite (drop_sentinels_default _ _ _ _ Hrows Hidx Hrect).
  rewrite (drop_sentinels_default _ _ _ _ Hrows' Hidx' Hrect').
  by rewrite Hfirst.
Qed.

(** X14: rows whose date is missing ([NaT]) come last in the result: no
    row with a date follows a row without one. *)
Theorem X14_missing_dates_come_last raw out i j v :
  normalize to_datetime_scalar raw = Ok out ->
  (i < j)%nat ->
  (rows out).*1 !! i = Some (VTime NaT) ->
  (rows out).*1 !! j = Some v ->
  v = VTime NaT.
Proof.
  intros Hnorm Hij Hi Hj.
  destruct (drop_sentinels raw) as [df1|e] eqn:Hdrop.
  2:{ unfold normalize in Hnorm. by rewrite Hdrop in Hnorm. }
  destruct (normalize_index _ _ _ _ Hdrop Hnorm)
    as (ts & ts' & _ & Hidx & _ & Hsorted).
  rewrite Hidx in Hi, Hj. change (map VTime ?l) with (VTime <$> l) in Hi, Hj.
  rewrite list_lookup_fmap in Hi, Hj.
  destruct (ts' !! i) as [ti|] eqn:Hti; [|discriminate].
  destruct (ts' !! j) as [tj|] eqn:Htj; [|discriminate].
  injection Hi as ->. injection Hj as <-.
  apply Sorted_StronglySorted in Hsorted; [|apply _].
  pose proof (StronglySorted_lookup_lt _ _ _ _ _ _ Hsorted Hij Hti Htj) as Hle.
  by destruct tj.
Qed.

(** X15: when the file of line 28 cannot be opened, because its path is
    a directory or because the open is refused, the function returns
    [False], the process ends with status 1 and the file system is as it
    was, also for a page that normalises without error. *)
Theorem X15_destination_that_cannot_be_opened
    read_html folder fs prog more :
  (folder +:+ "/" +:+ "vix_contago.csv") ∈ dirs fs \/
  faults fs !! (folder +:+ "/" +:+ "vix_contago.csv") = Some CannotOpen ->
  get_and_save_vix_contago to_datetime_scalar csv_text read_html folder fs
    = (false, fs) /\
  main to_datetime_scalar csv_text (prog :: folder :: more) read_html fs = (1, fs).
Proof.
  intros Hno.
  assert (Hrun : get_and_save_vix_contago to_datetime_scalar csv_text
                   read_html folder fs = (false, fs)).
  { rewrite get_and_save_block.
    destruct (try_block _ _ _ _ _) as [fs'|e] eqn:Hblock.
    - apply try_block_Ok in Hblock as (raw & rest & out & _ & _ & Hcsv).
      apply to_csv_Ok in Hcsv as (_ & Hfile & Hfault & _).
      destruct Hno as [Hdir|Hopen]; [done | congruence].
    - destruct (is_ok _); [|done]. f_equal.
      unfold interrupted_write, can_open.
      destruct Hno as [Hdir|Hopen].
      + rewrite (bool_decide_true _ Hdir). by rewrite andb_false_r.
      + rewrite Hopen. by destruct (_ && _). }
  split; [done|]. unfold main. cbn [lookup list_lookup]. by rewrite Hrun.
Qed.

End Behaviour.

(** ** The further behaviour on concrete pages *)

(** X1 on the page [no_date]. *)
Lemma X1_witness :
  get_and_save_vix_contago Iso.to_datetime_scalar as_written
    (fun _ => Ok [no_date]) "out" disk = (false, disk).
Proof.
  apply (X1_missing_date_column_fails Iso.to_datetime_scalar as_written
           (fun _ => Ok [no_date]) "out" disk no_date [] no_date_data).
  - reflexivity.
  - vm_compute. reflexivity.
  - apply (bool_decide_unpack _). vm_compute. exact I.
Defined.

(** X2 on the page [no_contango]. *)
Lemma X2_witness :
  get_and_save_vix_contago Iso.to_datetime_scalar as_written
    (fun _ => Ok [no_contango]) "out" disk = (false, disk).
Proof.
  apply (X2_missing_percent_column_fails Iso.to_datetime_scalar as_written
           (fun _ => Ok [no_contango]) "out" disk no_contango []
           no_contango_data (VStr "Contango 7/4")).
  - reflexivity.
  - vm_compute. reflexivity.
  - apply list_elem_of_further, list_elem_of_here.
  - apply (bool_decide_unpack _). vm_compute. exact I.
Defined.

(** X3 on the page [header_only]. *)
Lemma X3_witness :
  get_and_save_vix_contago Iso.to_datetime_scalar as_written
    (fun _ => Ok [header_only]) "out" disk = (false, disk).
Proof.
  apply (X3_fewer_than_two_rows_fails Iso.to_datetime_scalar as_written
           (fun _ => Ok [header_only]) "out" disk header_only []).
  - reflexivity.
  - simpl. lia.
Defined.

(** X4 on the page [percent_in_price]: ["5%"] in the column [F1]. *)
Lemma X4_witness :
  get_and_save_vix_contago Iso.to_datetime_scalar as_written
    (fun _ => Ok [percent_in_price]) "out" disk = (false, disk).
Proof.
  apply (X4_unconvertible_cell_fails Iso.to_datetime_scalar as_written
           (fun _ => Ok [percent_in_price]) "out" disk percent_in_price []
           percent_in_price_data
           (text_row 1 ["2020-01-02"; "5%"; "10%"; "20%"; "30%"])
           (VStr "F1") ValueError).
  - reflexivity.
  - vm_compute. reflexivity.
  - apply list_elem_of_here.
  - apply list_elem_of_further, list_elem_of_here.
  - discriminate.
  - reflexivity.
  - vm_compute. reflexivity.
Defined.

(** X5 on the page [quotes]: ["12.5"] in the column [F1]. *)
Lemma X5_witness :
  exists t r',
    Iso.to_datetime_scalar (VStr "2020-01-01") = Ok t /\
    r' ∈ rows quotes_out /\ r'.1 = VTime t /\
    pd.cell (VStr "F1") (columns quotes_out) r'.2 = lit "12.5".
Proof.
  apply (X5_number_text_becomes_float Iso.to_datetime_scalar
           quotes quotes_data quotes_out
           (text_row 2 ["2020-01-01"; "12.5"; "35%"; "1%2%"; "-1.5%"])
           (VStr "F1") "12.5" (default Float.nan (PyFloat.parse "12.5"))).
  - vm_compute. reflexivity.
  - vm_compute. reflexivity.
  - apply list_elem_of_further, list_elem_of_here.
  - apply list_elem_of_further, list_elem_of_here.
  - discriminate.
  - apply (bool_decide_unpack _). vm_compute. exact I.
  - reflexivity.
  - vm_compute. reflexivity.
Defined.

(** X6 on the page [quotes]: ["-"] in the column [F1]. *)
Lemma X6_witness :
  exists t r',
    Iso.to_datetime_scalar (VStr "2020-01-02") = Ok t /\
    r' ∈ rows quotes_out /\ r'.1 = VTime t /\
    pd.cell (VStr "F1") (columns quotes_out) r'.2 = NaN.
Proof.
  apply (X6_dash_becomes_NaN_in_other_columns Iso.to_datetime_scalar
           quotes quotes_data quotes_out
           (text_row 1 ["2020-01-02"; "-"; "10%"; "20%"; "30%"])
           (VStr "F1")).
  - vm_compute. reflexivity.
  - vm_compute. reflexivity.
  - apply list_elem_of_here.
  - apply list_elem_of_further, list_elem_of_here.
  - discriminate.
  - apply (bool_decide_unpack _). vm_compute. exact I.
  - reflexivity.
Defined.

(** X7 on the page [gaps]: a missing cell in the percentage column
    [Contango 7/4]. *)
Lemma X7_witness :
  exists t r',
    Iso.to_datetime_scalar (VStr "2020-01-02") = Ok t /\
    r' ∈ rows gaps_out /\ r'.1 = VTime t /\
    pd.cell (VStr "Contango 7/4") (columns gaps_out) r'.2 = NaN.
Proof.
  apply (X7_missing_cell_stays_missing Iso.to_datetime_scalar
           gaps gaps_data gaps_out
           (VInt 2, [VStr "2020-01-02"; NaN; VStr "10%"; NaN; VStr "30%"])
           (VStr "Contango 7/4")).
  - vm_compute. reflexivity.
  - vm_compute. reflexivity.
  - apply list_elem_of_further, list_elem_of_here.
  - do 3 apply list_elem_of_further. apply list_elem_of_here.
  - discriminate.
  - reflexivity.
Defined.

(** X8 on the page [quotes_relabelled], whose columns came labelled
    [a] to [e]. *)
Lemma X8_witness :
  exists first rest,
    rows quotes_relabelled = first :: rest /\
    columns quotes_out = filter (fun l => l <> Date) first.2.
Proof.
  apply (X8_columns_are_first_row_without_date Iso.to_datetime_scalar
           quotes_relabelled quotes_out).
  vm_compute. reflexivity.
Defined.

(** X9 on the first row of the result of the page [quotes]. *)
Lemma X9_witness :
  (exists t, day "2020-01-01" = VTime t) /\
  forall c, c ∈ columns quotes_out ->
    exists f,
      pd.cell c (columns quotes_out)
        [lit "12.5"; lit "0.35000000000000003"; lit "0.12"; lit "-0.015"]
      = VFloat f.
Proof.
  destruct (X9_result_holds_only_timestamps_and_floats Iso.to_datetime_scalar
              quotes quotes_out
              (day "2020-01-01",
               [lit "12.5"; lit "0.35000000000000003"; lit "0.12"; lit "-0.015"]))
    as [(t & Ht) Hcells].
  - vm_compute. reflexivity.
  - apply list_elem_of_here.
  - split; [|exact Hcells]. exists t. exact Ht.
Defined.

(** X11 with no directory at all. *)
Lemma X11_witness :
  get_and_save_vix_contago Iso.to_datetime_scalar as_written
    (fun _ => Ok [quotes]) "out" (mkFS ∅ ∅) = (false, mkFS ∅ ∅) /\
  main Iso.to_datetime_scalar as_written ["process_contango.py"; "out"]
    (fun _ => Ok [quotes]) (mkFS ∅ ∅) = (1, mkFS ∅ ∅).
Proof.
  apply (X11_missing_folder_fails Iso.to_datetime_scalar as_written
           (fun _ => Ok [quotes]) "out" (mkFS ∅ ∅) "process_contango.py" []).
  apply (bool_decide_unpack _). vm_compute. exact I.
Defined.


(** X13 on the pages [quotes] and [quotes_relabelled], which differ in
    their column labels and in their last row. *)
Lemma X13_witness :
  normalize Iso.to_datetime_scalar quotes
  = normalize Iso.to_datetime_scalar quotes_relabelled.
Proof.
  apply (X13_footer_and_raw_labels_are_ignored Iso.to_datetime_scalar
           quotes quotes_relabelled
           (text_row 0 header) (text_row 0 header)
           [ text_row 1 ["2020-01-02"; "-"; "10%"; "20%"; "30%"];
             text_row 2 ["2020-01-01"; "12.5"; "35%"; "1%2%"; "-1.5%"] ]
           (text_row 3 header) (text_row 3 ["Total"; ""; ""; ""; ""])).
  - reflexivity.
  - reflexivity.
  - reflexivity.
  - reflexivity.
  - reflexivity.
  - repeat constructor.
  - repeat constructor.
Defined.

(** X14 on the page [gaps], whose result has the rows without a date at
    positions 1 and 2. *)
Lemma X14_witness :
  default NaN ((rows gaps_out).*1 !! 2%nat) = VTime NaT.
Proof.
  apply (X14_missing_dates_come_last Iso.to_datetime_scalar
           gaps gaps_out 1 2 (default NaN ((rows gaps_out).*1 !! 2%nat))).
  - vm_compute. reflexivity.
  - lia.
  - reflexivity.
  - reflexivity.
Defined.

(** X15 on the page [quotes], written to a path that is a directory. *)
Lemma X15_witness :
  get_and_save_vix_contago Iso.to_datetime_scalar as_written
    (fun _ => Ok [quotes]) "out" blocked_disk = (false, blocked_disk) /\
  main Iso.to_datetime_scalar as_written ["process_contango.py"; "out"]
    (fun _ => Ok [quotes]) blocked_disk = (1, blocked_disk).
Proof.
  apply (X15_destination_that_cannot_be_opened Iso.to_datetime_scalar
           as_written (fun _ => Ok [quotes]) "out" blocked_disk
           "process_contango.py" []).
  left. apply (bool_decide_unpack _). vm_compute. exact I.
Defined.
